(** * The rate-limited, retrying request core of [riot_api.py]

    A shallow embedding of [RateLimiter.wait_if_needed],
    [RiotAPI._make_request] and the endpoint methods built on it, with the
    properties of the request core stated and proved over it.

    Conventions of the embedding.
    - Instants and durations are integers counting microseconds, the
      resolution of [datetime]; [seconds n] is [n] seconds.  The float that
      [total_seconds()] produces is kept as its exact microsecond count:
      after pruning, every difference the limiter subtracts lies strictly
      under the window length, so the sign tests of the source are decided
      the same way by the floats.
    - Python [int] is [Z]; [str] is [string].
    - The effects of the code (clock reads, [time.sleep], [requests.get],
      [logger] calls, assignments to [self.rate_limiter]'s lists) act on an
      explicit [State] through a state-and-exception monad. *)

From Stdlib Require Import ZArith List String Ascii Bool Lia Sorted DecimalString.
Import ListNotations.

Local Open Scope string_scope.
Local Open Scope list_scope.
Local Open Scope Z_scope.

(** ** Python values, exceptions *)

(** What [response.json()] can produce. *)
#[local] Set Warnings "-register-all".
Inductive PyValue : Type :=
| PyNone
| PyBool (b : bool)
| PyInt (z : Z)
| PyFloat (repr : string)
| PyStr (s : string)
| PyList (items : list PyValue)
| PyDict (items : list (string * PyValue)).
#[local] Set Warnings "register-all".




(** [str(n)] for an [int]. *)
Definition str_int (n : Z) : string := NilZero.string_of_int (Z.to_int n).

(** The exceptions that leave the modelled functions. *)
Inductive exn : Type :=
| RiotAPIError (msg : string)
| ValueError
| IndexError
| AttributeError.

Inductive result (A : Type) : Type :=
| Ok (a : A)
| Raise (e : exn).
Arguments Ok {A} a.
Arguments Raise {A} e.

(** ** HTTP *)

Record Request : Type := mkRequest {
  req_url : string;
  req_headers : list (string * string);
  req_params : option (list (string * Z));
  req_timeout : Z
}.

(** A response as the dispatcher reads it: [status_code], [text],
    [headers.get('Retry-After')] and the outcome of [json()], where
    [inl msg] is a [requests.exceptions.JSONDecodeError] whose [str] is
    [msg] (a [RequestException] in requests 2.27 and later). *)
Record Response : Type := mkResponse {
  status_code : Z;
  text : string;
  retry_after_header : option string;
  json : string + PyValue
}.

(** The three ways [requests.get] ends that the dispatcher tells apart:
    a response, [requests.exceptions.Timeout], or another
    [RequestException] [e] with [str(e) = msg]. *)
Inductive HttpResult : Type :=
| Responded (response : Response)
| Timeout
| RequestException (msg : string).

(** ** Logging *)

Inductive Level : Type := DEBUG | INFO | WARNING | ERROR.

Record LogRecord : Type := mkLog {
  level : Level;
  message : string;
  extra : list (string * PyValue)
}.

(** ** The environment and the state *)

(** What the code cannot see into.
    - [transport k req]: the outcome of the [k]-th [requests.get] (counted
      from 0 over the life of the state) on request [req];
    - [drift k]: the time that has passed, apart from sleeps, since the
      last clock read or sleep when the clock is read for the [k]-th time
      (negative when the wall clock was set back);
    - [py_int s]: [int(s)] on a header string, [None] for [ValueError];
    - [py_str v]: [str(v)] of a parsed value;
    - [format_2f d]: the rendering [f"{x:.2f}"] of the duration [d];
    - [builtins_is_module]: whether the global [__builtins__] is the
      [builtins] module (the file run as a script) or its [__dict__] (the
      file imported), which decides [__builtins__.type]. *)
Record Env : Type := mkEnv {
  transport : nat -> Request -> HttpResult;
  drift : nat -> Z;
  py_int : string -> option Z;
  py_str : PyValue -> string;
  format_2f : Z -> string;
  builtins_is_module : bool
}.

Record RateLimiter : Type := mkRateLimiter {
  requests_per_second : Z;
  requests_per_2min : Z;
  second_requests : list Z;
  two_min_requests : list Z
}.

(** [RateLimiter.__init__] with its default arguments. *)
Definition RateLimiter_init (requests_per_second requests_per_2min : Z) : RateLimiter :=
  mkRateLimiter requests_per_second requests_per_2min [] [].

Definition RateLimiter_default : RateLimiter := RateLimiter_init 20 100.

(** The state the code acts on.  [sleeps] lists the arguments of the
    [time.sleep] calls, [sent] the requests given to [requests.get], [logs]
    the [logger] calls at every level, each in order.  [rate_limiter] is
    the attribute [self.rate_limiter] of the client, the one attribute that
    changes after construction: it holds the limiter object, and
    [wait_if_needed] leaves there the object it was called on.
    [limiter_calls] is a ghost counter of the entries into
    [wait_if_needed]. *)
Record State : Type := mkState {
  clock : Z;
  reads : nat;
  sleeps : list Z;
  sent : list Request;
  logs : list LogRecord;
  limiter_calls : nat;
  rate_limiter : option RateLimiter
}.

Definition initial_state (now : Z) (limiter : option RateLimiter) : State :=
  mkState now 0 [] [] [] 0 limiter.

(** ** The monad *)

Definition M (A : Type) : Type := State -> result A * State.

Definition ret {A} (a : A) : M A := fun st => (Ok a, st).

Definition raise {A} (e : exn) : M A := fun st => (Raise e, st).

(** An expression that returns or raises without touching the state. *)
Definition lift {A} (r : result A) : M A := fun st => (r, st).

Definition bind {A B} (m : M A) (k : A -> M B) : M B :=
  fun st =>
    match m st with
    | (Ok a, st') => k a st'
    | (Raise e, st') => (Raise e, st')
    end.

Declare Scope py_scope.
Delimit Scope py_scope with py.
Notation "x <- m ;; k" := (bind m (fun x => k))
  (at level 61, m at next level, right associativity) : py_scope.
Notation "m ;; k" := (bind m (fun _ => k))
  (at level 61, right associativity) : py_scope.
Local Open Scope py_scope.

(** ** Primitive effects *)

(** [n] seconds, in microseconds. *)
Definition seconds (n : Z) : Z := n * 1000000.

(** [timedelta(minutes=n)]. *)
Definition minutes (n : Z) : Z := seconds (60 * n).

(** The instant a clock read in state [st] shows. *)
Definition now_at (env : Env) (st : State) : Z :=
  clock st + drift env (reads st).

(** [datetime.now()]. *)
Definition datetime_now (env : Env) : M Z :=
  fun st =>
    let t := now_at env st in
    (Ok t, mkState t (S (reads st)) (sleeps st) (sent st) (logs st)
                   (limiter_calls st) (rate_limiter st)).

(** [time.sleep(d)]: [ValueError] on a negative length. *)
Definition time_sleep (d : Z) : M unit :=
  fun st =>
    if d <? 0 then (Raise ValueError, st)
    else (Ok tt, mkState (clock st + d) (reads st) (sleeps st ++ [d]) (sent st)
                         (logs st) (limiter_calls st) (rate_limiter st)).

(** [requests.get(url, headers=..., params=..., timeout=...)]. *)
Definition requests_get (env : Env) (req : Request) : M HttpResult :=
  fun st =>
    (Ok (transport env (List.length (sent st)) req),
     mkState (clock st) (reads st) (sleeps st) (sent st ++ [req]) (logs st)
             (limiter_calls st) (rate_limiter st)).

(** A [logger] call. *)
Definition logger (lvl : Level) (msg : string) (ext : list (string * PyValue)) : M unit :=
  fun st =>
    (Ok tt, mkState (clock st) (reads st) (sleeps st) (sent st)
                    (logs st ++ [mkLog lvl msg ext]) (limiter_calls st)
                    (rate_limiter st)).

(** Assignment to the limiter object held in [self.rate_limiter]. *)
Definition store_limiter (rl : RateLimiter) : M unit :=
  fun st =>
    (Ok tt, mkState (clock st) (reads st) (sleeps st) (sent st) (logs st)
                    (limiter_calls st) (Some rl)).

(** Ghost step: counts one entry into [wait_if_needed]. *)
Definition enter_limiter : M unit :=
  fun st =>
    (Ok tt, mkState (clock st) (reads st) (sleeps st) (sent st) (logs st)
                    (S (limiter_calls st)) (rate_limiter st)).

(** [l[0]]. *)
Definition index0 (l : list Z) : result Z :=
  match l with
  | [] => Raise IndexError
  | x :: _ => Ok x
  end.

(** ** [RateLimiter.wait_if_needed] *)

Definition wait_if_needed (env : Env) (self : RateLimiter) : M unit :=
  enter_limiter ;;
  now <- datetime_now env ;;
  let cutoff_2min := now - minutes 2 in
  let two_min := filter (fun ts => cutoff_2min <? ts) (two_min_requests self) in
  store_limiter (mkRateLimiter (requests_per_second self) (requests_per_2min self)
                               (second_requests self) two_min) ;;
  let cutoff_1sec := now - seconds 1 in
  let second := filter (fun ts => cutoff_1sec <? ts) (second_requests self) in
  store_limiter (mkRateLimiter (requests_per_second self) (requests_per_2min self)
                               second two_min) ;;
  (if requests_per_second self <=? Z.of_nat (List.length second) then
     first <- lift (index0 second) ;;
     let sleep_time := seconds 1 - (now - first) in
     if 0 <? sleep_time then
       logger DEBUG ("Rate limit: sleeping " ++ format_2f env sleep_time ++ "s") [] ;;
       time_sleep sleep_time
     else ret tt
   else ret tt) ;;
  (if requests_per_2min self <=? Z.of_nat (List.length two_min) then
     first <- lift (index0 two_min) ;;
     let sleep_time := seconds 120 - (now - first) in
     if 0 <? sleep_time then
       logger WARNING ("2-minute rate limit: sleeping " ++ format_2f env sleep_time ++ "s") [] ;;
       time_sleep sleep_time
     else ret tt
   else ret tt) ;;
  now <- datetime_now env ;;
  store_limiter (mkRateLimiter (requests_per_second self) (requests_per_2min self)
                               (second ++ [now]) (two_min ++ [now])).

(** ** The client *)

(** The attributes of a [RiotAPI] object that stay as [__init__] set them. *)
Record RiotAPI : Type := mkRiotAPI {
  api_key : string;
  region : string;
  max_retries : Z;
  platform_url : string;
  regional_url : string
}.

(** [self.headers]. *)
Definition headers (self : RiotAPI) : list (string * string) :=
  [("X-Riot-Token", api_key self); ("Accept", "application/json")].

(** The request [requests.get(url, headers=self.headers, params=params,
    timeout=10)] sends. *)
Definition request (self : RiotAPI) (url : string) (params : option (list (string * Z))) : Request :=
  mkRequest url (headers self) params 10.

(** [int(response.headers.get('Retry-After', 5))]. *)
Definition retry_after_of (env : Env) (response : Response) : result Z :=
  match retry_after_header response with
  | None => Ok 5
  | Some s =>
      match py_int env s with
      | Some n => Ok n
      | None => Raise ValueError
      end
  end.

(** One turn of the loop [for attempt in range(self.max_retries)] of
    [_make_request]: [Some v] is [return v], [None] is reaching the next
    turn ([continue]). *)
Definition attempt_body (env : Env) (self : RiotAPI) (url : string)
    (params : option (list (string * Z))) (attempt : nat) : M (option PyValue) :=
  outcome <- requests_get env (request self url params) ;;
  match outcome with
  | Responded response =>
      if status_code response =? 200 then
        match json response with
        | inr body => ret (Some body)
        | inl msg => raise (RiotAPIError ("Request failed: " ++ msg))
        end
      else if status_code response =? 404 then
        raise (RiotAPIError ("Resource not found: " ++ url))
      else if status_code response =? 403 then
        logger ERROR "API request failed: Invalid API key or forbidden access"
          [("url", PyStr url);
           ("api_key", PyStr (substring 0 10 (api_key self)));
           ("status_code", PyInt (status_code response));
           ("response", PyStr (text response))] ;;
        raise (RiotAPIError ("Invalid API key or forbidden access. Response: "
                             ++ text response))
      else if status_code response =? 429 then
        retry_after <- lift (retry_after_of env response) ;;
        logger WARNING ("Rate limited. Waiting " ++ str_int retry_after ++ "s...") [] ;;
        time_sleep (seconds retry_after) ;;
        ret None
      else if 500 <=? status_code response then
        logger WARNING ("Server error " ++ str_int (status_code response)
                        ++ ". Attempt " ++ str_int (Z.of_nat attempt + 1) ++ "/"
                        ++ str_int (max_retries self)) [] ;;
        time_sleep (seconds (2 ^ Z.of_nat attempt)) ;;
        ret None
      else
        raise (RiotAPIError ("Unexpected status code " ++ str_int (status_code response)
                             ++ ": " ++ text response))
  | Timeout =>
      logger WARNING ("Request timeout. Attempt " ++ str_int (Z.of_nat attempt + 1)
                      ++ "/" ++ str_int (max_retries self)) [] ;;
      if Z.of_nat attempt <? max_retries self - 1 then
        time_sleep (seconds (2 ^ Z.of_nat attempt)) ;;
        ret None
      else raise (RiotAPIError "Request timed out after all retries")
  | RequestException msg =>
      raise (RiotAPIError ("Request failed: " ++ msg))
  end.

(** The loop over the remaining values of [attempt], and the [raise] that
    follows it. *)
Fixpoint run_attempts (env : Env) (self : RiotAPI) (url : string)
    (params : option (list (string * Z))) (attempts : list nat) : M PyValue :=
  match attempts with
  | [] =>
      raise (RiotAPIError ("Failed after " ++ str_int (max_retries self) ++ " attempts"))
  | attempt :: rest =>
      r <- attempt_body env self url params attempt ;;
      match r with
      | Some body => ret body
      | None => run_attempts env self url params rest
      end
  end.

(** [range(n)]. *)
Definition range (n : Z) : list nat := seq 0 (Z.to_nat n).

(** The guard [if self.rate_limiter: self.rate_limiter.wait_if_needed()]. *)
Definition acquire (env : Env) : M unit :=
  fun st =>
    match rate_limiter st with
    | Some limiter => wait_if_needed env limiter st
    | None => ret tt st
    end.

Definition _make_request (env : Env) (self : RiotAPI) (url : string)
    (params : option (list (string * Z))) : M PyValue :=
  acquire env ;;
  run_attempts env self url params (range (max_retries self)).

(** ** Endpoint methods *)

(** A query-parameter dict with [int] values, in insertion order. *)
Definition Params : Type := list (string * Z).

Fixpoint dict_get (key : string) (d : Params) : option Z :=
  match d with
  | [] => None
  | (k, v) :: d' => if String.eqb k key then Some v else dict_get key d'
  end.

Definition get_summoner_by_puuid (env : Env) (self : RiotAPI) (puuid : string) : M PyValue :=
  let url := (platform_url self ++ "/lol/summoner/v4/summoners/by-puuid/" ++ puuid)%string in
  _make_request env self url None.

(** The dict [params] of [get_match_ids] when the request is made.  The
    test [if queue:] fails on [None] and on [0]. *)
Definition match_ids_params (start count : Z) (queue type : option Z) : Params :=
  let params := [("start", start); ("count", Z.min count 100)] in
  let params :=
    match queue with
    | Some q => if q =? 0 then params else params ++ [("queue", q)]
    | None => params
    end in
  match type with
  | Some t => params ++ [("type", t)]
  | None => params
  end.





Definition get_match_timeline (env : Env) (self : RiotAPI) (match_id : string) : M PyValue :=
  let url := (regional_url self ++ "/lol/match/v5/matches/" ++ match_id ++ "/timeline")%string in
  _make_request env self url None.



Definition get_challenger_league (env : Env) (self : RiotAPI) (queue : string) : M PyValue :=
  let url := (platform_url self ++ "/lol/league/v4/challengerleagues/by-queue/" ++ queue)%string in
  _make_request env self url None.

(** ** Vocabulary of the statements *)

(** A window after the pruning of [wait_if_needed] at instant [now]. *)
Definition prune (span now : Z) (window : list Z) : list Z :=
  filter (fun ts => now - span <? ts) window.

(** The sleep a window asks for: none under the cap, else the span less
    the age, at instant [now], of the oldest timestamp kept. *)
Definition window_wait (cap span now : Z) (window : list Z) : list Z :=
  if cap <=? Z.of_nat (List.length window)
  then [span - (now - hd 0 window)] else [].

Definition total (l : list Z) : Z := fold_right Z.add 0 l.

Definition wait_log (lvl : Level) (prefix : string) (env : Env) (wait : list Z) : list LogRecord :=
  map (fun d => mkLog lvl (prefix ++ format_2f env d ++ "s") []) wait.

(** A state with one more request sent. *)
Definition after_get (req : Request) (st : State) : State :=
  mkState (clock st) (reads st) (sleeps st) (sent st ++ [req]) (logs st)
          (limiter_calls st) (rate_limiter st).

(** The state after a turn of the loop that sent [req], logged the warning
    [line], slept [d] and went on to the next turn. *)
Definition after_retry (req : Request) (line : string) (d : Z) (st : State) : State :=
  mkState (clock st + d) (reads st) (sleeps st ++ [d]) (sent st ++ [req])
          (logs st ++ [mkLog WARNING line []]) (limiter_calls st) (rate_limiter st).

(** ** Substrings *)


(** ** Sample environments *)

Module Sample.

Definition int_of_digits (s : string) : option Z :=
  option_map Z.of_int (NilZero.int_of_string s).

(** A runtime with a clock that only sleeps move, and a scripted
    transport: the [k]-th request gets [script k]. *)
Definition env (script : nat -> HttpResult) : Env :=
  mkEnv (fun k _ => script k) (fun _ => 0) int_of_digits (fun _ => "{...}")
        (fun d => (str_int (d / 1000000) ++ "." ++ str_int (d / 100000 mod 10)
                   ++ str_int (d / 10000 mod 10))%string) false.

Definition client (key : string) (retries : Z) : RiotAPI :=
  mkRiotAPI key "na1" retries "https://na1.api.riotgames.com"
            "https://americas.api.riotgames.com".

Definition status (code : Z) (retry_after : option string) : HttpResult :=
  Responded (mkResponse code "" retry_after (inl "Expecting value")).

Definition ok (body : PyValue) : HttpResult :=
  Responded (mkResponse 200 "" None (inr body)).

Definition body : PyValue := PyDict [("puuid", PyStr "abc")].


Definition url : string := "https://na1.api.riotgames.com/lol/status/v4/platform-data".

Definition key : string := "RGAPI-12345678-abcd-ef00".


Definition not_found : Response :=
  mkResponse 404 "Data not found" None (inl "Expecting value").


(** 503 twice, then 200. *)
Definition unavailable_twice (k : nat) : HttpResult :=
  match k with
  | 0%nat | 1%nat => status 503 None
  | _ => ok body
  end.

(** A limiter with both windows at their caps, one long-window entry
    being out of date, and a state whose clock shows one second. *)
Definition busy : RateLimiter :=
  mkRateLimiter 2 2 [500000; 900000] [100 - seconds 120; 500000; 900000].

Definition at_one_second : State := initial_state (seconds 1) None.

End Sample.

(** * The rest of the client *)

(** In this part a [str] is the string of the bytes of its UTF-8 encoding.
    [str.lower] and slices are modelled for ASCII text, where bytes and
    characters agree; the statements that depend on it say so. *)

(** ** [RiotAPI.__init__] *)

Definition PLATFORM_URLS : list (string * string) :=
  [("na1", "https://na1.api.riotgames.com");
   ("euw1", "https://euw1.api.riotgames.com");
   ("kr", "https://kr.api.riotgames.com");
   ("br1", "https://br1.api.riotgames.com");
   ("eun1", "https://eun1.api.riotgames.com");
   ("jp1", "https://jp1.api.riotgames.com");
   ("la1", "https://la1.api.riotgames.com");
   ("la2", "https://la2.api.riotgames.com");
   ("oc1", "https://oc1.api.riotgames.com");
   ("tr1", "https://tr1.api.riotgames.com");
   ("ru", "https://ru.api.riotgames.com")].

Definition REGIONAL_URLS : list (string * string) :=
  [("americas", "https://americas.api.riotgames.com");
   ("europe", "https://europe.api.riotgames.com");
   ("asia", "https://asia.api.riotgames.com")].

Definition PLATFORM_TO_REGION : list (string * string) :=
  [("na1", "americas"); ("br1", "americas"); ("la1", "americas"); ("la2", "americas");
   ("euw1", "europe"); ("eun1", "europe"); ("tr1", "europe"); ("ru", "europe");
   ("kr", "asia"); ("jp1", "asia"); ("oc1", "asia")].

(** [d.get(key)] on a dict with [str] keys and values. *)
Fixpoint table_get (key : string) (d : list (string * string)) : option string :=
  match d with
  | [] => None
  | (k, v) :: d' => if String.eqb k key then Some v else table_get key d'
  end.

(** [list(d.keys())]. *)
Definition keys (d : list (string * string)) : list string := map fst d.

(** [x in l] for a list of [str]. *)
Definition str_in (x : string) (l : list string) : bool := existsb (String.eqb x) l.

Definition is_ascii (s : string) : bool :=
  forallb (fun c => (nat_of_ascii c <? 128)%nat) (list_ascii_of_string s).

(** [str.lower] on one ASCII character. *)
Definition lower_char (c : ascii) : ascii :=
  let n := nat_of_ascii c in
  if ((65 <=? n) && (n <=? 90))%nat then ascii_of_nat (n + 32) else c.

(** [s.lower()], for ASCII [s]. *)
Fixpoint lower (s : string) : string :=
  match s with
  | EmptyString => EmptyString
  | String c rest => String (lower_char c) (lower rest)
  end.

(** [repr] of a list of [str] that hold no quote, backslash or control
    character, as an f-string renders it. *)
Definition repr_str_list (l : list string) : string :=
  "[" ++ String.concat ", " (map (fun x => ("'" ++ x ++ "'")%string) l) ++ "]".

(** How [__init__] can end without an object: the [ValueError] it raises
    itself, with its message, or a [KeyError] of a table lookup. *)
Inductive ConstructionError : Type :=
| InvalidRegion (msg : string)
| KeyError (key : string).

(** [RiotAPI(api_key, region, rate_limit, max_retries)]: the attributes of
    the new object, its limiter being left in the state. *)
Definition RiotAPI_init (api_key region : string) (rate_limit : bool) (max_retries : Z)
    (st : State) : (ConstructionError + RiotAPI) * State :=
  let self_region := lower region in
  if negb (str_in self_region (keys PLATFORM_URLS)) then
    (inl (InvalidRegion ("Invalid region: " ++ region ++ ". Must be one of "
                         ++ repr_str_list (keys PLATFORM_URLS))), st)
  else
    match table_get self_region PLATFORM_URLS with
    | None => (inl (KeyError self_region), st)
    | Some platform_url =>
        match table_get self_region PLATFORM_TO_REGION with
        | None => (inl (KeyError self_region), st)
        | Some routing =>
            match table_get routing REGIONAL_URLS with
            | None => (inl (KeyError routing), st)
            | Some regional_url =>
                (inr (mkRiotAPI api_key self_region max_retries platform_url regional_url),
                 mkState (clock st) (reads st) (sleeps st) (sent st)
                   (logs st ++ [mkLog INFO ("RiotAPI initialized for region: " ++ self_region) []])
                   (limiter_calls st)
                   (if rate_limit then Some RateLimiter_default else None))
            end
        end
    end.

(** ** [urllib.parse.quote] with its default [safe='/'] *)

(** The bytes [quote] never escapes: letters, digits and [_.-~]. *)
Definition always_safe (c : ascii) : bool :=
  let n := nat_of_ascii c in
  (((65 <=? n) && (n <=? 90)) || ((97 <=? n) && (n <=? 122))
   || ((48 <=? n) && (n <=? 57))
   || (n =? 95) || (n =? 46) || (n =? 45) || (n =? 126))%nat.

(** The upper-case hexadecimal digit of [n < 16]. *)
Definition hex_digit (n : nat) : ascii :=
  if (n <? 10)%nat then ascii_of_nat (48 + n) else ascii_of_nat (55 + n).

(** ['%{:02X}'.format(byte)]. *)
Definition percent_encode (c : ascii) : string :=
  let n := nat_of_ascii c in
  String "%" (String (hex_digit (n / 16)) (String (hex_digit (n mod 16)) EmptyString)).

Definition quote_byte (c : ascii) : string :=
  if always_safe c || Ascii.eqb c "/" then String c EmptyString else percent_encode c.

Fixpoint quote (s : string) : string :=
  match s with
  | EmptyString => EmptyString
  | String c rest => quote_byte c ++ quote rest
  end.

(** ** More endpoint methods *)

Definition account_url (self : RiotAPI) (game_name tag_line : string) : string :=
  regional_url self ++ "/riot/account/v1/accounts/by-riot-id/" ++ quote game_name
  ++ "/" ++ quote tag_line.

Definition get_account_by_riot_id (env : Env) (self : RiotAPI)
    (game_name tag_line : string) : M PyValue :=
  let url := account_url self game_name tag_line in
  logger INFO ("Fetching account: " ++ game_name ++ "#" ++ tag_line) [] ;;
  _make_request env self url None.

Definition summoner_url (self : RiotAPI) (summoner_name : string) : string :=
  platform_url self ++ "/lol/summoner/v4/summoners/by-name/" ++ quote summoner_name.

Definition get_summoner_by_name (env : Env) (self : RiotAPI) (summoner_name : string) : M PyValue :=
  let url := summoner_url self summoner_name in
  logger INFO ("Fetching summoner: " ++ summoner_name) [] ;;
  _make_request env self url None.

(** [try: m  except RiotAPIError as e: handler(str(e))]. *)
Definition try_except_RiotAPIError {A} (m : M A) (handler : string -> M A) : M A :=
  fun st =>
    match m st with
    | (Raise (RiotAPIError msg), st') => handler msg st'
    | out => out
    end.

(** The marks the log lines of the source start with, byte for byte. *)
Definition mark_ok : string := "‚úÖ".
Definition mark_fail : string := "‚ùå".

Definition test_connection (env : Env) (self : RiotAPI) : M bool :=
  try_except_RiotAPIError
    (get_account_by_riot_id env self "Doublelift" "NA1" ;;
     logger INFO (mark_ok ++ " API connection test successful") [] ;;
     ret true)
    (fun e =>
       logger ERROR (mark_fail ++ " API connection test failed: " ++ e) [] ;;
       ret false).




(** ** [Config] *)

Module Config.

(** The class attributes [validate] and [display] read; [RIOT_API_KEY] is
    [None] when the variable is not set. *)
Record t : Type := mk {
  RIOT_API_KEY : option string;
  RIOT_REGION : string;
  TARGET_RANK : string
}.

Definition VALID_RANKS : list string :=
  ["IRON"; "BRONZE"; "SILVER"; "GOLD"; "PLATINUM";
   "DIAMOND"; "MASTER"; "GRANDMASTER"; "CHALLENGER"].

Definition valid_regions : list string :=
  ["na1"; "euw1"; "eun1"; "kr"; "br1"; "jp1"; "la1"; "la2"; "oc1"; "tr1"; "ru"].

(** The list [errors] of [validate] before it is tested. *)
Definition errors (cls : t) : list string :=
  let errors :=
    match RIOT_API_KEY cls with
    | None => ["RIOT_API_KEY is not set in .env file"]
    | Some key =>
        if String.eqb key "" then ["RIOT_API_KEY is not set in .env file"]
        else if String.eqb key "your_riot_api_key_here"
        then ["RIOT_API_KEY still has placeholder value. Please update .env"]
        else []
    end in
  let errors :=
    if negb (str_in (RIOT_REGION cls) valid_regions)
    then errors ++ [("RIOT_REGION must be one of " ++ repr_str_list valid_regions)%string]
    else errors in
  if negb (str_in (TARGET_RANK cls) VALID_RANKS)
  then errors ++ [("TARGET_RANK must be one of " ++ repr_str_list VALID_RANKS)%string]
  else errors.

(** [Config.validate()]: what it returns and the lines it prints. *)
Definition validate (cls : t) : bool * list string :=
  match errors cls with
  | [] => (true, [(mark_ok ++ " Configuration validated successfully")%string])
  | errs =>
      (false,
       (mark_fail ++ " Configuration errors:")%string
       :: map (fun error => ("   - " ++ error)%string) errs)
  end.


End Config.

(** ** More vocabulary of the statements *)

(** How many timestamps of [window] are younger than [span] at instant [t]. *)
Definition recent (span t : Z) (window : list Z) : Z :=
  Z.of_nat (List.length (prune span t window)).

(** A limiter in good order at instant [t]: positive caps, windows in time
    order that hold nothing later than [t], and no more timestamps within
    the last second, or the last 120 seconds, than the caps allow. *)
Definition limiter_ok (limiter : RateLimiter) (t : Z) : Prop :=
  0 < requests_per_second limiter /\
  0 < requests_per_2min limiter /\
  Sorted Z.le (second_requests limiter) /\
  Sorted Z.le (two_min_requests limiter) /\
  Forall (fun ts => ts <= t) (second_requests limiter) /\
  Forall (fun ts => ts <= t) (two_min_requests limiter) /\
  recent (seconds 1) t (second_requests limiter) <= requests_per_second limiter /\
  recent (seconds 120) t (two_min_requests limiter) <= requests_per_2min limiter.

Definition limiter_inv (st : State) : Prop :=
  match rate_limiter st with
  | Some limiter => limiter_ok limiter (clock st)
  | None => True
  end.

(** The bytes [quote] can produce. *)
Definition url_safe (c : ascii) : bool :=
  always_safe c || Ascii.eqb c "/" || Ascii.eqb c "%".

(** The value of a hexadecimal digit. *)
Definition hex_value (c : ascii) : nat :=
  let n := nat_of_ascii c in
  if (n <? 58)%nat then (n - 48)%nat else (n - 55)%nat.

(** The first byte a quoted string stands for, and what follows it. *)
Definition unquote_head (s : string) : option (ascii * string) :=
  match s with
  | EmptyString => None
  | String c rest =>
      if Ascii.eqb c "%" then
        match rest with
        | String hi (String lo rest') =>
            Some (ascii_of_nat (16 * hex_value hi + hex_value lo), rest')
        | _ => None
        end
      else Some (c, rest)
  end.


(** The state after a caller made the calls [requests] one after the
    other, whatever each returned or raised. *)
Definition calls (env : Env) (self : RiotAPI)
    (requests : list (string * option (list (string * Z)))) (st : State) : State :=
  fold_left (fun st request =>
               snd (_make_request env self (fst request) (snd request) st))
            requests st.


(** * Properties *)

(** ** Tactics for running the monad *)

Ltac step_effects :=
  cbv beta delta [bind ret raise lift logger time_sleep requests_get store_limiter
                  enter_limiter datetime_now now_at index0] iota zeta;
  cbn [clock reads sleeps sent logs limiter_calls rate_limiter fst snd].

(** Case analysis on an innermost scrutinee of the goal. *)
Ltac break_match :=
  match goal with
  | |- context [match ?x with _ => _ end] =>
      lazymatch x with
      | context [match _ with _ => _ end] => fail
      | _ => destruct x eqn:?
      end
  end.

Ltac run_all := step_effects; repeat (break_match; step_effects).

(** ** The limiter *)

Section Limiter.

Variable env : Env.
Variable self : RateLimiter.

Lemma prune_head span now window first rest :
  prune span now window = first :: rest -> now - span < first.
Proof.
  intros H.
  assert (Hin : In first (prune span now window)) by (rewrite H; now left).
  apply filter_In in Hin. destruct Hin as [_ Hlt]. now apply Z.ltb_lt in Hlt.
Qed.


Lemma prune_keeps_Forall (P : Z -> Prop) span now window :
  Forall P window -> Forall P (prune span now window).
Proof.
  rewrite !Forall_forall. intros H ts Hin. apply filter_In in Hin. now apply H.
Qed.

Lemma prune_sorted span now window :
  StronglySorted Z.le window -> StronglySorted Z.le (prune span now window).
Proof.
  induction 1 as [|ts window Hs IH Hall]; cbn; [constructor|].
  destruct (now - span <? ts); [|exact IH].
  constructor; [exact IH|]. now apply prune_keeps_Forall.
Qed.

Lemma sorted_snoc window last :
  StronglySorted Z.le window -> Forall (fun ts => ts <= last) window ->
  StronglySorted Z.le (window ++ [last]).
Proof.
  induction 1 as [|ts window Hs IH Hall]; cbn; intros Hle.
  - repeat constructor.
  - inversion Hle; subst. constructor; [now apply IH|].
    apply Forall_app. split; [exact Hall|]. now repeat constructor.
Qed.

(** A window pruned at [now] and filled to its cap asks for a sleep that
    is positive. *)
Lemma window_wait_pos cap span now window :
  0 < cap -> Forall (fun d => 0 < d) (window_wait cap span now (prune span now window)).
Proof.
  intros Hcap. unfold window_wait.
  destruct (cap <=? _) eqn:E; [|constructor].
  destruct (prune span now window) as [|first rest] eqn:Ep.
  - apply Z.leb_le in E. cbn in E. lia.
  - apply prune_head in Ep. cbn. repeat constructor. lia.
Qed.

Lemma total_app l1 l2 : total (l1 ++ l2) = total l1 + total l2.
Proof. induction l1; cbn; [reflexivity|]. unfold total in *. lia. Qed.

Lemma total_nonneg l : Forall (fun d => 0 < d) l -> 0 <= total l.
Proof. induction 1; cbn; unfold total in *; lia. Qed.

(** What one invocation does, when both caps are positive. *)
Lemma wait_if_needed_run st :
  0 < requests_per_second self -> 0 < requests_per_2min self ->
  let now := now_at env st in
  let short := prune (seconds 1) now (second_requests self) in
  let long := prune (minutes 2) now (two_min_requests self) in
  let w1 := window_wait (requests_per_second self) (seconds 1) now short in
  let w2 := window_wait (requests_per_2min self) (seconds 120) now long in
  let now' := now + total (w1 ++ w2) + drift env (S (reads st)) in
  wait_if_needed env self st =
  (Ok tt,
   mkState now' (S (S (reads st))) (sleeps st ++ w1 ++ w2) (sent st)
     (logs st ++ wait_log DEBUG "Rate limit: sleeping " env w1
              ++ wait_log WARNING "2-minute rate limit: sleeping " env w2)
     (S (limiter_calls st))
     (Some (mkRateLimiter (requests_per_second self) (requests_per_2min self)
                          (short ++ [now']) (long ++ [now'])))).
Proof.
  intros Hs Hl now short long w1 w2 now'. unfold now_at in now.
  unfold wait_if_needed. step_effects. fold now.
  fold (prune (seconds 1) now (second_requests self)).
  fold (prune (minutes 2) now (two_min_requests self)). fold short long.
  subst now' w1 w2. unfold window_wait.
  destruct (requests_per_second self <=? Z.of_nat (List.length short)) eqn:E1;
    destruct (requests_per_2min self <=? Z.of_nat (List.length long)) eqn:E2.
  all: destruct short as [|s0 srest] eqn:Es; destruct long as [|l0 lrest] eqn:El.
  all: cbn [List.length] in E1, E2;
    try (apply Z.leb_le in E1; lia); try (apply Z.leb_le in E2; lia).
  all: try (pose proof (prune_head _ _ _ _ _ Es) as Hs0).
  all: try (pose proof (prune_head _ _ _ _ _ El) as Hl0).
  all: unfold minutes, seconds in *; cbn [hd].
  all: repeat match goal with
       | |- context [0 <? ?x] =>
           replace (0 <? x) with true by (symmetry; apply Z.ltb_lt; lia)
       end.
  all: step_effects.
  all: repeat match goal with
       | |- context [?x <? 0] =>
           replace (x <? 0) with false by (symmetry; apply Z.ltb_ge; lia)
       end.
  all: step_effects; cbn [wait_log map total fold_right app].
  all: rewrite ?app_nil_r, <- ?app_assoc; cbn [app].
  all: match goal with
       | |- (_, mkState ?c1 _ _ _ _ _ _) = (_, mkState ?c2 _ _ _ _ _ _) =>
           replace c1 with c2 by lia
       end.
  all: reflexivity.
Qed.

(** Whatever the caps, an invocation counts once and sends nothing. *)
Lemma wait_if_needed_frame st :
  let st' := snd (wait_if_needed env self st) in
  sent st' = sent st /\ limiter_calls st' = S (limiter_calls st).
Proof. unfold wait_if_needed. run_all; auto. Qed.

End Limiter.


(** C7.  With positive caps, the sleeps of one invocation are the short
    window's wait followed by the long window's wait, both computed from the
    one instant [now] that the clock read at entry shows: the long wait is
    120 s less [now - long[0]], whether or not the short sleep happened, and
    the clock is read only twice, at entry and before the appends. *)
Theorem long_wait_uses_entry_reading (env : Env) (self : RateLimiter) (st : State) :
  0 < requests_per_second self ->
  0 < requests_per_2min self ->
  exists st' now short long,
    wait_if_needed env self st = (Ok tt, st') /\
    fst (datetime_now env st) = Ok now /\
    short = filter (fun ts => now - seconds 1 <? ts) (second_requests self) /\
    long = filter (fun ts => now - seconds 120 <? ts) (two_min_requests self) /\
    sleeps st' =
      sleeps st
      ++ (if requests_per_second self <=? Z.of_nat (List.length short)
          then [seconds 1 - (now - hd 0 short)] else [])
      ++ (if requests_per_2min self <=? Z.of_nat (List.length long)
          then [seconds 120 - (now - hd 0 long)] else []) /\
    reads st' = S (S (reads st)).
Proof.
  intros Hs Hl.
  pose proof (wait_if_needed_run env self st Hs Hl) as Hrun. cbv zeta in Hrun.
  eexists _, (now_at env st), _, _.
  split; [exact Hrun|]. cbn [sleeps reads]. repeat split.
Qed.

(** ** The dispatcher: one attempt *)

Section Dispatcher.

Variable env : Env.
Variable self : RiotAPI.
Variable url : string.
Variable params : option (list (string * Z)).

Let req : Request := request self url params.

Lemma seconds_nonneg n : 0 <= n -> (seconds n <? 0) = false.
Proof. intros H. apply Z.ltb_ge. unfold seconds. lia. Qed.


Lemma status_5xx attempt st response :
  transport env (List.length (sent st)) req = Responded response ->
  500 <= status_code response ->
  attempt_body env self url params attempt st =
  (Ok None,
   after_retry req ("Server error " ++ str_int (status_code response) ++ ". Attempt "
                ++ str_int (Z.of_nat attempt + 1) ++ "/" ++ str_int (max_retries self))
               (seconds (2 ^ Z.of_nat attempt)) st).
Proof.
  intros Hget Hcode. unfold attempt_body. step_effects. fold req. rewrite Hget.
  repeat match goal with
         | |- context [status_code response =? ?c] =>
             replace (status_code response =? c) with false
               by (symmetry; apply Z.eqb_neq; lia)
         end.
  replace (500 <=? status_code response) with true by (symmetry; apply Z.leb_le; lia).
  step_effects. rewrite seconds_nonneg by (apply Z.pow_nonneg; lia). reflexivity.
Qed.

Lemma timeout_with_attempts_left attempt st :
  transport env (List.length (sent st)) req = Timeout ->
  Z.of_nat attempt < max_retries self - 1 ->
  attempt_body env self url params attempt st =
  (Ok None,
   after_retry req ("Request timeout. Attempt " ++ str_int (Z.of_nat attempt + 1)
                ++ "/" ++ str_int (max_retries self))
               (seconds (2 ^ Z.of_nat attempt)) st).
Proof.
  intros Hget Hleft. unfold attempt_body. step_effects. fold req. rewrite Hget.
  step_effects.
  replace (Z.of_nat attempt <? max_retries self - 1) with true
    by (symmetry; apply Z.ltb_lt; lia).
  step_effects. rewrite seconds_nonneg by (apply Z.pow_nonneg; lia). reflexivity.
Qed.

Lemma timeout_on_last_attempt attempt st :
  transport env (List.length (sent st)) req = Timeout ->
  max_retries self - 1 <= Z.of_nat attempt ->
  attempt_body env self url params attempt st =
  (Raise (RiotAPIError "Request timed out after all retries"),
   mkState (clock st) (reads st) (sleeps st) (sent st ++ [req])
     (logs st ++ [mkLog WARNING ("Request timeout. Attempt "
                                 ++ str_int (Z.of_nat attempt + 1)
                                 ++ "/" ++ str_int (max_retries self)) []])
     (limiter_calls st) (rate_limiter st)).
Proof.
  intros Hget Hlast. unfold attempt_body. step_effects. fold req. rewrite Hget.
  step_effects.
  replace (Z.of_nat attempt <? max_retries self - 1) with false
    by (symmetry; apply Z.ltb_ge; lia).
  reflexivity.
Qed.

Lemma status_200 attempt st response body :
  transport env (List.length (sent st)) req = Responded response ->
  status_code response = 200 ->
  json response = inr body ->
  attempt_body env self url params attempt st = (Ok (Some body), after_get req st).
Proof.
  intros Hget Hcode Hjson. unfold attempt_body. step_effects. fold req.
  rewrite Hget, Hcode, Hjson. reflexivity.
Qed.

(** Every turn sends the one request and leaves the limiter alone. *)
Lemma attempt_body_frame attempt st :
  let st' := snd (attempt_body env self url params attempt st) in
  sent st' = sent st ++ [req] /\
  limiter_calls st' = limiter_calls st /\
  rate_limiter st' = rate_limiter st.
Proof. unfold attempt_body. run_all; auto. Qed.

(** A turn returns only the parsed body of a response with status 200. *)
Lemma attempt_body_returns attempt st st' body :
  attempt_body env self url params attempt st = (Ok (Some body), st') ->
  exists response,
    transport env (List.length (sent st)) req = Responded response /\
    status_code response = 200 /\ json response = inr body.
Proof.
  unfold attempt_body. step_effects. fold req.
  destruct (transport env (List.length (sent st)) req) as [response| |msg];
    step_effects; [|repeat (break_match; step_effects); discriminate|discriminate].
  destruct (status_code response =? 200) eqn:E200.
  - destruct (json response) as [msg|v] eqn:Ej; [discriminate|].
    intros H. injection H as Hv _. subst v. exists response.
    apply Z.eqb_eq in E200. auto.
  - repeat (break_match; step_effects); discriminate.
Qed.

(** ** The dispatcher: the loop *)

Lemma run_attempts_frame attempts st :
  let st' := snd (run_attempts env self url params attempts st) in
  (exists k, (k <= List.length attempts)%nat /\ sent st' = sent st ++ repeat req k) /\
  limiter_calls st' = limiter_calls st /\
  rate_limiter st' = rate_limiter st.
Proof.
  revert st. induction attempts as [|attempt rest IH]; intros st; cbn [run_attempts].
  - cbn. split; [|auto]. exists 0%nat. cbn. now rewrite app_nil_r.
  - pose proof (attempt_body_frame attempt st) as Hbody. cbv zeta in Hbody.
    unfold bind.
    destruct (attempt_body env self url params attempt st) as [[[body|]|e] st1];
      cbn [snd fst] in *; destruct Hbody as (Hsent & Hcalls & Hlim).
    + split; [|auto]. exists 1%nat. cbn [List.length repeat]. split; [lia|exact Hsent].
    + specialize (IH st1). cbv zeta in IH. destruct IH as ((k & Hk & Hs) & Hc & Hl).
      split; [|split; congruence].
      exists (S k). split; [cbn; lia|].
      rewrite Hs, Hsent, <- app_assoc. reflexivity.
    + split; [|auto]. exists 1%nat. cbn [List.length repeat]. split; [lia|exact Hsent].
Qed.

Lemma run_attempts_returns attempts st st' body :
  run_attempts env self url params attempts st = (Ok body, st') ->
  exists k response,
    transport env k req = Responded response /\
    status_code response = 200 /\ json response = inr body.
Proof.
  revert st. induction attempts as [|attempt rest IH]; intros st; cbn [run_attempts].
  - discriminate.
  - unfold bind.
    destruct (attempt_body env self url params attempt st) as [[[v|]|e] st1] eqn:Hbody.
    + intros H. injection H as Hv _. subst v.
      apply attempt_body_returns in Hbody. destruct Hbody as (response & H).
      now exists (List.length (sent st)), response.
    + apply IH.
    + discriminate.
Qed.

Lemma _make_request_after_acquire st st0 :
  acquire env st = (Ok tt, st0) ->
  _make_request env self url params st =
  run_attempts env self url params (range (max_retries self)) st0.
Proof. intros H. unfold _make_request, bind. now rewrite H. Qed.

Lemma acquire_frame st :
  let st' := snd (acquire env st) in
  sent st' = sent st /\
  limiter_calls st' =
    (limiter_calls st + match rate_limiter st with Some _ => 1 | None => 0 end)%nat.
Proof.
  unfold acquire. destruct (rate_limiter st) as [limiter|].
  - pose proof (wait_if_needed_frame env limiter st) as H. cbv zeta in *.
    destruct H as [Hs Hc]. split; [exact Hs|]. rewrite Hc. lia.
  - cbn. split; [reflexivity|lia].
Qed.

End Dispatcher.

(** ** The dispatcher: scenarios *)

Section Scenarios.

Variable env : Env.
Variable self : RiotAPI.
Variable url : string.
Variable params : option (list (string * Z)).

Let req : Request := request self url params.

(** The message of the [raise] after the loop. *)
Let failed : exn :=
  RiotAPIError ("Failed after " ++ str_int (max_retries self) ++ " attempts").


(** Timeouts on each of the [S m] turns that remain, the last of which is
  the last of the call. *)
Lemma run_attempts_timeouts :
forall m attempt st,
  Z.of_nat (attempt + S m) = max_retries self ->
  (forall i, (i <= m)%nat ->
     transport env (List.length (sent st) + i) req = Timeout) ->
  let out := run_attempts env self url params (seq attempt (S m)) st in
  fst out = Raise (RiotAPIError "Request timed out after all retries") /\
  sleeps (snd out) =
    sleeps st ++ map (fun a => seconds (2 ^ Z.of_nat a)) (seq attempt m) /\
  List.length (sent (snd out)) = (List.length (sent st) + S m)%nat.
Proof.
induction m as [|m IH]; intros attempt st Hlast Hget.
- cbn [seq run_attempts]. unfold bind.
  pose proof (Hget 0%nat ltac:(lia)) as Hget0. rewrite Nat.add_0_r in Hget0.
  rewrite (timeout_on_last_attempt env self url params attempt st Hget0) by lia.
  cbn. rewrite app_nil_r, length_app. cbn. repeat split.
- change (seq attempt (S (S m))) with (attempt :: seq (S attempt) (S m)).
  cbn [run_attempts]. unfold bind.
  pose proof (Hget 0%nat ltac:(lia)) as Hget0. rewrite Nat.add_0_r in Hget0.
  rewrite (timeout_with_attempts_left env self url params attempt st Hget0) by lia.
  fold req. set (st1 := after_retry req _ _ st).
  assert (Hlen : List.length (sent st1) = S (List.length (sent st)))
    by (cbn; rewrite length_app; cbn; lia).
  specialize (IH (S attempt) st1). cbv zeta in IH.
  destruct IH as (Hres & Hsleeps & Hsent).
  + rewrite <- Hlast. f_equal. lia.
  + intros i Hi. rewrite Hlen.
    replace (S (List.length (sent st)) + i)%nat
      with (List.length (sent st) + S i)%nat by lia.
    apply Hget. lia.
  + cbv zeta. rewrite Hres, Hsleeps, Hsent, Hlen. repeat split.
    * cbn [sleeps st1 after_retry seq map]. rewrite <- app_assoc. reflexivity.
    * lia.
Qed.

(** A status of 500 or more on each of the [m] turns that remain: every
    turn sleeps, the last one too. *)
Lemma run_attempts_server_errors (r : nat -> Response) :
  forall m attempt st,
    (forall i, (i < m)%nat ->
       transport env (List.length (sent st) + i) req = Responded (r (attempt + i)%nat) /\
       500 <= status_code (r (attempt + i)%nat)) ->
    let out := run_attempts env self url params (seq attempt m) st in
    fst out = Raise failed /\
    sleeps (snd out) =
      sleeps st ++ map (fun a => seconds (2 ^ Z.of_nat a)) (seq attempt m) /\
    List.length (sent (snd out)) = (List.length (sent st) + m)%nat.
Proof.
  induction m as [|m IH]; intros attempt st Hget.
  - cbn. rewrite app_nil_r. repeat split. lia.
  - cbn [seq run_attempts]. unfold bind.
    destruct (Hget 0%nat ltac:(lia)) as [Hget0 Hcode0].
    rewrite !Nat.add_0_r in *.
    rewrite (status_5xx env self url params attempt st _ Hget0 Hcode0).
    fold req. set (st1 := after_retry req _ _ st).
    assert (Hlen : List.length (sent st1) = S (List.length (sent st)))
      by (cbn; rewrite length_app; cbn; lia).
    specialize (IH (S attempt) st1). cbv zeta in IH.
    destruct IH as (Hres & Hsleeps & Hsent).
    + intros i Hi. rewrite Hlen.
      replace (S (List.length (sent st)) + i)%nat
        with (List.length (sent st) + S i)%nat by lia.
      replace (S attempt + i)%nat with (attempt + S i)%nat by lia.
      apply Hget. lia.
    + cbv zeta. rewrite Hres, Hsleeps, Hsent, Hlen. repeat split.
      * cbn [sleeps st1 after_retry seq map]. rewrite <- app_assoc. reflexivity.
      * lia.
Qed.

End Scenarios.

(** ** The dispatcher: whole calls *)

Lemma _make_request_frame env self url params st :
  let st' := snd (_make_request env self url params st) in
  (exists k, (k <= Z.to_nat (max_retries self))%nat /\
             sent st' = sent st ++ repeat (request self url params) k) /\
  limiter_calls st' =
    (limiter_calls st + match rate_limiter st with Some _ => 1 | None => 0 end)%nat.
Proof.
  pose proof (acquire_frame env st) as Hacq. cbv zeta in *.
  unfold _make_request, bind.
  destruct (acquire env st) as [[[]|e] st0]; cbn [snd] in *; destruct Hacq as [Hs Hc].
  - pose proof (run_attempts_frame env self url params (range (max_retries self)) st0) as H.
    cbv zeta in H. destruct H as ((k & Hk & Hsent) & Hcalls & _).
    split; [|congruence]. exists k. unfold range in Hk. rewrite length_seq in Hk.
    split; [exact Hk|congruence].
  - split; [|exact Hc]. exists 0%nat. split; [lia|]. cbn. now rewrite app_nil_r.
Qed.

Lemma _make_request_returns env self url params st st' body :
  _make_request env self url params st = (Ok body, st') ->
  exists k response,
    transport env k (request self url params) = Responded response /\
    status_code response = 200 /\ json response = inr body.
Proof.
  unfold _make_request, bind. destruct (acquire env st) as [[[]|e] st0]; [|discriminate].
  apply run_attempts_returns.
Qed.




(** C2 (amended).  A call enters the limiter once, before its first
    request, when the client has one, and never when it has none; the turns
    of the loop, however many requests they send, do not enter it. *)
Theorem limiter_entered_once_per_call
    (env : Env) (self : RiotAPI) (url : string) (params : option (list (string * Z)))
    (st : State) (attempts : list nat) :
  limiter_calls (snd (_make_request env self url params st)) =
    (limiter_calls st + match rate_limiter st with Some _ => 1 | None => 0 end)%nat /\
  limiter_calls (snd (acquire env st)) =
    (limiter_calls st + match rate_limiter st with Some _ => 1 | None => 0 end)%nat /\
  sent (snd (acquire env st)) = sent st /\
  limiter_calls (snd (run_attempts env self url params attempts st)) = limiter_calls st.
Proof.
  pose proof (_make_request_frame env self url params st) as Hcall.
  pose proof (acquire_frame env st) as Hacq.
  pose proof (run_attempts_frame env self url params attempts st) as Hrun.
  cbv zeta in *. intuition.
Qed.

(** C3.  With [max_retries = 3] and status 503 on every request, the call
    sleeps 1 s, 2 s and 4 s, the last of them after its last request, and
    then raises "Failed after 3 attempts". *)
Theorem server_errors_sleep_after_last_attempt :
  let out := _make_request (Sample.env (fun _ => Sample.status 503 None))
                           (Sample.client "RGAPI-0000" 3)
                           "https://na1.api.riotgames.com/x" None
                           (initial_state 0 None) in
  fst out = Raise (RiotAPIError "Failed after 3 attempts") /\
  sleeps (snd out) = [seconds 1; seconds 2; seconds 4] /\
  List.length (sent (snd out)) = 3%nat.
Proof. vm_compute. repeat split. Qed.


(** C8.  When [max_retries] is at least 1 and every request of a call
    ends in a timeout, the call makes [max_retries] requests, sleeps
    [2 ^ attempt] seconds after each of them but the last, and raises
    "Request timed out after all retries". *)
Theorem timeouts_exhaust_the_budget
    (env : Env) (self : RiotAPI) (url : string) (params : option (list (string * Z)))
    (st st0 : State) :
  acquire env st = (Ok tt, st0) ->
  1 <= max_retries self ->
  (forall i, (i < Z.to_nat (max_retries self))%nat ->
     transport env (List.length (sent st0) + i) (request self url params) = Timeout) ->
  fst (_make_request env self url params st) =
    Raise (RiotAPIError "Request timed out after all retries") /\
  sleeps (snd (_make_request env self url params st)) =
    sleeps st0 ++ map (fun attempt => seconds (2 ^ Z.of_nat attempt))
                      (seq 0 (Z.to_nat (max_retries self) - 1)) /\
  List.length (sent (snd (_make_request env self url params st))) =
    (List.length (sent st0) + Z.to_nat (max_retries self))%nat.
Proof.
  intros Hacq Hpos Hget.
  rewrite (_make_request_after_acquire env self url params st st0 Hacq).
  unfold range.
  destruct (Z.to_nat (max_retries self)) as [|m] eqn:Hn; [lia|].
  replace (S m - 1)%nat with m by lia.
  apply (run_attempts_timeouts env self url params m 0%nat st0); [lia|].
  intros i Hi. apply Hget. lia.
Qed.

(** C9.  A turn that receives status 404 raises "Resource not found" at
    once: whatever turns remain, the state it leaves differs from the one
    it found by the one request only, with no sleep and no further
    request. *)
Theorem not_found_is_terminal
    (env : Env) (self : RiotAPI) (url : string) (params : option (list (string * Z)))
    (attempt : nat) (rest : list nat) (st : State) (response : Response) :
  transport env (List.length (sent st)) (request self url params) = Responded response ->
  status_code response = 404 ->
  run_attempts env self url params (attempt :: rest) st =
    (Raise (RiotAPIError ("Resource not found: " ++ url)),
     mkState (clock st) (reads st) (sleeps st) (sent st ++ [request self url params])
             (logs st) (limiter_calls st) (rate_limiter st)).
Proof.
  intros Hget Hcode.
  cbn [run_attempts]. unfold bind at 1. unfold attempt_body. step_effects.
  rewrite Hget, Hcode. reflexivity.
Qed.

(** ** Endpoint methods *)



(** ** Runs on sample inputs *)



(** C2, as stated, fails: a call with a limiter that sends three requests
    enters the limiter once. *)
Lemma limiter_not_entered_on_retries :
  let out := _make_request (Sample.env Sample.unavailable_twice)
                           (Sample.client Sample.key 3) Sample.url None
                           (initial_state 0 (Some RateLimiter_default)) in
  fst out = Ok Sample.body /\
  List.length (sent (snd out)) = 3%nat /\
  limiter_calls (snd out) = 1%nat /\
  limiter_calls (snd out) <> List.length (sent (snd out)).
Proof. vm_compute. repeat split. discriminate. Qed.





Lemma long_wait_uses_entry_reading_witness :
  let env := Sample.env (fun _ => Timeout) in
  exists st' now short long,
    wait_if_needed env Sample.busy Sample.at_one_second = (Ok tt, st') /\
    fst (datetime_now env Sample.at_one_second) = Ok now /\
    short = filter (fun ts => now - seconds 1 <? ts) (second_requests Sample.busy) /\
    long = filter (fun ts => now - seconds 120 <? ts) (two_min_requests Sample.busy) /\
    sleeps st' =
      sleeps Sample.at_one_second
      ++ (if requests_per_second Sample.busy <=? Z.of_nat (List.length short)
          then [seconds 1 - (now - hd 0 short)] else [])
      ++ (if requests_per_2min Sample.busy <=? Z.of_nat (List.length long)
          then [seconds 120 - (now - hd 0 long)] else []) /\
    reads st' = S (S (reads Sample.at_one_second)).
Proof.
  apply (long_wait_uses_entry_reading (Sample.env (fun _ => Timeout)) Sample.busy
                                      Sample.at_one_second).
  - reflexivity.
  - reflexivity.
Defined.

Lemma timeouts_exhaust_the_budget_witness :
  let env := Sample.env (fun _ => Timeout) in
  let out := _make_request env (Sample.client Sample.key 3) Sample.url None
                           (initial_state 0 None) in
  fst out = Raise (RiotAPIError "Request timed out after all retries") /\
  sleeps (snd out) = [seconds 1; seconds 2] /\
  List.length (sent (snd out)) = 3%nat.
Proof.
  apply (timeouts_exhaust_the_budget (Sample.env (fun _ => Timeout))
           (Sample.client Sample.key 3) Sample.url None
           (initial_state 0 None) (initial_state 0 None)).
  - reflexivity.
  - discriminate.
  - intros i Hi. reflexivity.
Defined.

Lemma not_found_is_terminal_witness :
  let self := Sample.client Sample.key 3 in
  run_attempts (Sample.env (fun _ => Responded Sample.not_found)) self Sample.url None
               [0%nat; 1%nat; 2%nat] (initial_state 0 None) =
    (Raise (RiotAPIError ("Resource not found: " ++ Sample.url)),
     mkState 0 0 [] [request self Sample.url None] [] 0 None).
Proof.
  apply (not_found_is_terminal (Sample.env (fun _ => Responded Sample.not_found))
           (Sample.client Sample.key 3) Sample.url None 0%nat [1%nat; 2%nat]
           (initial_state 0 None) Sample.not_found).
  - reflexivity.
  - reflexivity.
Defined.


(** * Further properties *)

(** ** The limiter *)

Lemma filter_length_mono {A} (p q : A -> bool) (l : list A) :
  (forall x, p x = true -> q x = true) ->
  (List.length (filter p l) <= List.length (filter q l))%nat.
Proof.
  intros Hpq. induction l as [|x l IH]; cbn; [lia|].
  destruct (p x) eqn:Hp.
  - rewrite (Hpq x Hp). cbn. lia.
  - destruct (q x); cbn; lia.
Qed.

Lemma recent_later span t t' window :
  t <= t' -> recent span t' window <= recent span t window.
Proof.
  intros Hle. unfold recent, prune. apply inj_le. apply filter_length_mono.
  intros x Hx. apply Z.ltb_lt in Hx. apply Z.ltb_lt. lia.
Qed.

Lemma prune_length span t window :
  (List.length (prune span t window) <= List.length window)%nat.
Proof. unfold prune. apply filter_length_le. Qed.

(** The count a window shows once [last] is appended, when a full window
    was made to wait until its oldest timestamp was [span] old. *)
Lemma recent_after_wait cap span now last window :
  0 < cap ->
  0 < span ->
  now <= last ->
  recent span now window <= cap ->
  (cap <= recent span now window ->
   forall first rest, prune span now window = first :: rest -> first + span <= last) ->
  recent span last (prune span now window ++ [last]) <= cap.
Proof.
  intros Hpos Hspan Hle Hcap Hfull. unfold recent in *. unfold prune at 1.
  rewrite filter_app, length_app. cbn [filter].
  replace (last - span <? last) with true by (symmetry; apply Z.ltb_lt; lia).
  cbn [List.length]. fold (prune span last (prune span now window)).
  destruct (Z_lt_le_dec (Z.of_nat (List.length (prune span now window))) cap) as [Hlt|Hge].
  - pose proof (prune_length span last (prune span now window)). lia.
  - specialize (Hfull Hge).
    destruct (prune span now window) as [|first rest] eqn:Hp.
    + cbn in *. lia.
    + specialize (Hfull first rest eq_refl). cbn [prune filter].
      replace (last - span <? first) with false by (symmetry; apply Z.ltb_ge; lia).
      fold (prune span last rest).
      pose proof (prune_length span last rest). cbn [List.length] in *. lia.
Qed.

Lemma prune_snoc_sorted span now last window :
  Sorted Z.le window -> (forall ts, In ts window -> ts <= last) ->
  Sorted Z.le (prune span now window ++ [last]).
Proof.
  intros Hw Hle. apply StronglySorted_Sorted. apply sorted_snoc.
  - apply prune_sorted. apply Sorted_StronglySorted; [|exact Hw].
    intros x y z. apply Z.le_trans.
  - apply prune_keeps_Forall. apply Forall_forall. exact Hle.
Qed.

Lemma window_wait_full cap span now window first rest :
  cap <= Z.of_nat (List.length window) ->
  window = first :: rest ->
  total (window_wait cap span now window) = span - (now - first).
Proof.
  intros Hfull ->. unfold window_wait.
  replace (cap <=? _) with true by (symmetry; apply Z.leb_le; exact Hfull).
  cbn. lia.
Qed.

(** An invocation on a limiter in good order, with a clock that does not
    run backwards, returns and leaves the limiter in good order at the
    instant it recorded. *)
Lemma wait_if_needed_keeps_ok (env : Env) (self : RateLimiter) (st : State) :
  limiter_ok self (now_at env st) ->
  0 <= drift env (S (reads st)) ->
  exists st' after,
    wait_if_needed env self st = (Ok tt, st') /\
    rate_limiter st' = Some after /\
    limiter_ok after (clock st').
Proof.
  intros (Hs & Hl & Hss & Hsl & Hps & Hpl & Hcs & Hcl) Hdrift.
  pose proof (wait_if_needed_run env self st Hs Hl) as Hrun. cbv zeta in Hrun.
  set (st' := mkState _ _ _ _ _ _ _) in Hrun.
  set (now := now_at env st) in *.
  set (w1 := window_wait (requests_per_second self) (seconds 1) now
                         (prune (seconds 1) now (second_requests self))) in *.
  set (w2 := window_wait (requests_per_2min self) (seconds 120) now
                         (prune (minutes 2) now (two_min_requests self))) in *.
  set (last := now + total (w1 ++ w2) + drift env (S (reads st))) in *.
  assert (Hw1 : 0 <= total w1)
    by (apply total_nonneg; apply window_wait_pos; exact Hs).
  assert (Hw2 : 0 <= total w2)
    by (apply total_nonneg; apply (window_wait_pos (requests_per_2min self) (seconds 120));
        exact Hl).
  assert (Hclock : last = now + total w1 + total w2 + drift env (S (reads st)))
    by (subst last; rewrite total_app; lia).
  eexists st', _. split; [exact Hrun|]. split; [reflexivity|].
  unfold limiter_ok. cbn [requests_per_second requests_per_2min second_requests
                          two_min_requests].
  change (clock st') with last.
  repeat split; try assumption.
  - apply prune_snoc_sorted; [assumption|].
    rewrite Forall_forall in Hps. intros ts Hin. specialize (Hps ts Hin). cbn in Hps. lia.
  - apply prune_snoc_sorted; [assumption|].
    rewrite Forall_forall in Hpl. intros ts Hin. specialize (Hpl ts Hin). cbn in Hpl. lia.
  - apply Forall_app. split; [|repeat constructor; lia].
    apply prune_keeps_Forall. eapply Forall_impl; [|exact Hps]. cbn. intros; lia.
  - apply Forall_app. split; [|repeat constructor; lia].
    apply prune_keeps_Forall. eapply Forall_impl; [|exact Hpl]. cbn. intros; lia.
  - apply recent_after_wait; try assumption; [unfold seconds; lia|lia|].
    intros Hge first rest Hp.
    pose proof (window_wait_full (requests_per_second self) (seconds 1) now _ first rest
                  Hge Hp) as Hw.
    fold w1 in Hw. lia.
  - change (minutes 2) with (seconds 120).
    apply recent_after_wait; try assumption; [unfold seconds; lia|lia|].
    intros Hge first rest Hp.
    pose proof (window_wait_full (requests_per_2min self) (seconds 120) now _ first rest
                  Hge Hp) as Hw.
    change (prune (seconds 120) now (two_min_requests self))
      with (prune (minutes 2) now (two_min_requests self)) in Hw.
    fold w2 in Hw. lia.
Qed.

Lemma limiter_ok_later limiter t t' :
  t <= t' -> limiter_ok limiter t -> limiter_ok limiter t'.
Proof.
  intros Hle (Hs & Hl & Hss & Hsl & Hps & Hpl & Hcs & Hcl).
  unfold limiter_ok. repeat split; try assumption.
  - eapply Forall_impl; [|exact Hps]. cbn. intros; lia.
  - eapply Forall_impl; [|exact Hpl]. cbn. intros; lia.
  - pose proof (recent_later (seconds 1) t t' (second_requests limiter) Hle). lia.
  - pose proof (recent_later (seconds 120) t t' (two_min_requests limiter) Hle). lia.
Qed.

Lemma window_wait_bound cap span now window :
  0 < cap ->
  Forall (fun ts => ts <= now) window ->
  Forall (fun d => 0 < d <= span) (window_wait cap span now (prune span now window)).
Proof.
  intros Hcap Hpast. unfold window_wait.
  destruct (cap <=? _) eqn:E; [|constructor].
  destruct (prune span now window) as [|first rest] eqn:Hp.
  - apply Z.leb_le in E. cbn in E. lia.
  - pose proof (prune_head _ _ _ _ _ Hp) as Hlo.
    pose proof (prune_keeps_Forall _ span now window Hpast) as Hhi.
    rewrite Hp in Hhi. inversion Hhi; subst. cbn. repeat constructor; lia.
Qed.

Lemma window_wait_short cap span now window :
  0 < cap ->
  0 <= span ->
  Forall (fun ts => ts <= now) window ->
  (List.length (window_wait cap span now (prune span now window)) <= 1)%nat /\
  total (window_wait cap span now (prune span now window)) <= span.
Proof.
  intros Hcap Hspan Hpast.
  pose proof (window_wait_bound cap span now window Hcap Hpast) as Hb.
  unfold window_wait in *. destruct (cap <=? _).
  - inversion Hb; subst. cbn. lia.
  - cbn. lia.
Qed.

(** X1.  When an invocation with positive caps finds the short window at
    its cap, the instant it records for the new request is at least one
    second after the oldest timestamp it kept. *)
Theorem full_short_window_waits_a_second
    (env : Env) (self : RateLimiter) (st : State) (oldest : Z) (rest : list Z) :
  0 < requests_per_second self ->
  0 < requests_per_2min self ->
  0 <= drift env (S (reads st)) ->
  filter (fun ts => now_at env st - seconds 1 <? ts) (second_requests self) = oldest :: rest ->
  requests_per_second self <= Z.of_nat (List.length (oldest :: rest)) ->
  exists st' long,
    wait_if_needed env self st = (Ok tt, st') /\
    rate_limiter st' =
      Some (mkRateLimiter (requests_per_second self) (requests_per_2min self)
                          (oldest :: rest ++ [clock st']) long) /\
    oldest + seconds 1 <= clock st'.
Proof.
  intros Hs Hl Hdrift Hshort Hfull.
  pose proof (wait_if_needed_run env self st Hs Hl) as Hrun. cbv zeta in Hrun.
  fold (prune (seconds 1) (now_at env st) (second_requests self)) in Hshort.
  rewrite Hshort in Hrun.
  set (w1 := window_wait _ (seconds 1) _ _) in Hrun.
  set (w2 := window_wait _ (seconds 120) _ _) in Hrun.
  assert (Hw1 : total w1 = seconds 1 - (now_at env st - oldest))
    by (apply (window_wait_full _ _ _ _ oldest rest Hfull eq_refl)).
  assert (Hw2 : 0 <= total w2)
    by (apply total_nonneg; apply (window_wait_pos (requests_per_2min self) (seconds 120));
        exact Hl).
  eexists _, _. split; [exact Hrun|]. cbn [rate_limiter clock]. split; [reflexivity|].
  rewrite total_app. lia.
Qed.

(** X2.  When an invocation with positive caps finds the long window at
    its cap, the instant it records for the new request is at least 120
    seconds after the oldest timestamp it kept, although the wait was
    computed from the clock read at entry. *)
Theorem full_long_window_waits_two_minutes
    (env : Env) (self : RateLimiter) (st : State) (oldest : Z) (rest : list Z) :
  0 < requests_per_second self ->
  0 < requests_per_2min self ->
  0 <= drift env (S (reads st)) ->
  filter (fun ts => now_at env st - seconds 120 <? ts) (two_min_requests self) = oldest :: rest ->
  requests_per_2min self <= Z.of_nat (List.length (oldest :: rest)) ->
  exists st' short,
    wait_if_needed env self st = (Ok tt, st') /\
    rate_limiter st' =
      Some (mkRateLimiter (requests_per_second self) (requests_per_2min self)
                          short (oldest :: rest ++ [clock st'])) /\
    oldest + seconds 120 <= clock st'.
Proof.
  intros Hs Hl Hdrift Hlong Hfull.
  pose proof (wait_if_needed_run env self st Hs Hl) as Hrun. cbv zeta in Hrun.
  change (minutes 2) with (seconds 120) in Hrun.
  fold (prune (seconds 120) (now_at env st) (two_min_requests self)) in Hlong.
  rewrite Hlong in Hrun.
  set (w1 := window_wait _ (seconds 1) _ _) in Hrun.
  set (w2 := window_wait _ (seconds 120) _ _) in Hrun.
  assert (Hw2 : total w2 = seconds 120 - (now_at env st - oldest))
    by (apply (window_wait_full _ _ _ _ oldest rest Hfull eq_refl)).
  assert (Hw1 : 0 <= total w1)
    by (apply total_nonneg; apply window_wait_pos; exact Hs).
  eexists _, _. split; [exact Hrun|]. cbn [rate_limiter clock]. split; [reflexivity|].
  rewrite total_app. lia.
Qed.


(** X4.  With positive caps and no timestamp in the future, one invocation
    sleeps at most twice, each sleep being positive, the first at most one
    second and the whole at most 121 seconds. *)
Theorem wait_if_needed_sleeps_at_most (env : Env) (self : RateLimiter) (st : State) :
  0 < requests_per_second self ->
  0 < requests_per_2min self ->
  Forall (fun ts => ts <= now_at env st) (second_requests self) ->
  Forall (fun ts => ts <= now_at env st) (two_min_requests self) ->
  exists st' slept,
    wait_if_needed env self st = (Ok tt, st') /\
    sleeps st' = sleeps st ++ slept /\
    (List.length slept <= 2)%nat /\
    Forall (fun d => 0 < d <= seconds 120) slept /\
    total slept <= seconds 121.
Proof.
  intros Hs Hl Hps Hpl.
  pose proof (wait_if_needed_run env self st Hs Hl) as Hrun. cbv zeta in Hrun.
  change (minutes 2) with (seconds 120) in Hrun.
  pose proof (window_wait_bound _ (seconds 1) _ _ Hs Hps) as Hb1.
  pose proof (window_wait_bound _ (seconds 120) _ _ Hl Hpl) as Hb2.
  set (w1 := window_wait _ (seconds 1) _ _) in *.
  set (w2 := window_wait _ (seconds 120) _ _) in *.
  pose proof (window_wait_short _ (seconds 1) _ _ Hs ltac:(unfold seconds; lia) Hps)
    as Hlen1.
  pose proof (window_wait_short _ (seconds 120) _ _ Hl ltac:(unfold seconds; lia) Hpl)
    as Hlen2.
  fold w1 in Hlen1. fold w2 in Hlen2.
  eexists _, (w1 ++ w2). split; [exact Hrun|]. cbn [sleeps]. split; [reflexivity|].
  rewrite length_app, total_app. repeat split.
  - lia.
  - apply Forall_app. split; [|exact Hb2].
    eapply Forall_impl; [|exact Hb1]. cbn. unfold seconds. intros; lia.
  - unfold seconds in *. lia.
Qed.

(** X5.  A limiter whose per-second cap is not positive raises
    [IndexError] on an invocation that finds no timestamp within the last
    second: the windows are pruned, and no request is recorded. *)
Theorem wait_if_needed_without_cap (env : Env) (self : RateLimiter) (st : State) :
  requests_per_second self <= 0 ->
  filter (fun ts => now_at env st - seconds 1 <? ts) (second_requests self) = [] ->
  wait_if_needed env self st =
    (Raise IndexError,
     mkState (now_at env st) (S (reads st)) (sleeps st) (sent st) (logs st)
       (S (limiter_calls st))
       (Some (mkRateLimiter (requests_per_second self) (requests_per_2min self) []
                (filter (fun ts => now_at env st - seconds 120 <? ts)
                        (two_min_requests self))))).
Proof.
  intros Hcap Hshort. unfold wait_if_needed. step_effects.
  unfold now_at in Hshort. rewrite Hshort. cbn [List.length].
  replace (requests_per_second self <=? Z.of_nat 0) with true
    by (symmetry; apply Z.leb_le; lia).
  reflexivity.
Qed.

(** ** The dispatcher *)

Lemma Zltb_false_ge x y : (x <? y) = false -> y <= x.
Proof. apply Z.ltb_ge. Qed.


Lemma attempt_body_clock env self url params attempt st :
  clock st <= clock (snd (attempt_body env self url params attempt st)).
Proof.
  unfold attempt_body. run_all;
    repeat match goal with
           | H : (_ <? _) = false |- _ => apply Zltb_false_ge in H
           end;
    try lia.
Qed.


Lemma run_attempts_clock env self url params attempts st :
  clock st <= clock (snd (run_attempts env self url params attempts st)).
Proof.
  revert st. induction attempts as [|attempt rest IH]; intros st; cbn [run_attempts].
  - cbn. lia.
  - pose proof (attempt_body_clock env self url params attempt st) as Hbody.
    unfold bind.
    destruct (attempt_body env self url params attempt st) as [[[v|]|e1] st1];
      cbn [snd ret] in *; try lia.
    specialize (IH st1). lia.
Qed.


Lemma wait_if_needed_clock env self st :
  0 < requests_per_second self ->
  0 < requests_per_2min self ->
  0 <= drift env (reads st) ->
  0 <= drift env (S (reads st)) ->
  clock st <= clock (snd (wait_if_needed env self st)).
Proof.
  intros Hs Hl Hd0 Hd1. rewrite (wait_if_needed_run env self st Hs Hl).
  cbn [snd clock]. rewrite total_app.
  pose proof (total_nonneg _ (window_wait_pos (requests_per_second self)
                (seconds 1) (now_at env st) (second_requests self) Hs)) as Hp1.
  pose proof (total_nonneg _ (window_wait_pos (requests_per_2min self)
                (seconds 120) (now_at env st) (two_min_requests self) Hl)) as Hp2.
  change (minutes 2) with (seconds 120). unfold now_at in *. lia.
Qed.

(** One call keeps a limiter in good order, and never sets the clock
    back. *)
Lemma _make_request_keeps_limiter env self url params st :
  limiter_inv st ->
  0 <= drift env (reads st) ->
  0 <= drift env (S (reads st)) ->
  limiter_inv (snd (_make_request env self url params st)) /\
  clock st <= clock (snd (_make_request env self url params st)).
Proof.
  intros Hinv Hd0 Hd1. unfold _make_request, bind, acquire, limiter_inv in *.
  destruct (rate_limiter st) as [limiter|] eqn:Hlim.
  - assert (Hok : limiter_ok limiter (now_at env st))
      by (apply (limiter_ok_later limiter (clock st)); [unfold now_at; lia|exact Hinv]).
    destruct (wait_if_needed_keeps_ok env limiter st Hok Hd1)
      as (st0 & after & Hrun & Hafter & Hok').
    rewrite Hrun.
    pose proof (run_attempts_frame env self url params (range (max_retries self)) st0) as Hf.
    pose proof (run_attempts_clock env self url params (range (max_retries self)) st0) as Hc.
    cbv zeta in Hf. destruct Hf as (_ & _ & Hsame).
    assert (Hclock0 : clock st <= clock st0).
    { destruct Hok as (Hs & Hl & _).
      pose proof (wait_if_needed_clock env limiter st Hs Hl Hd0 Hd1) as Hclock.
      rewrite Hrun in Hclock. exact Hclock. }
    rewrite Hsame, Hafter. split; [|lia].
    apply (limiter_ok_later after (clock st0)); [exact Hc|exact Hok'].
  - cbn [ret].
    pose proof (run_attempts_frame env self url params (range (max_retries self)) st) as Hf.
    pose proof (run_attempts_clock env self url params (range (max_retries self)) st) as Hc.
    cbv zeta in Hf. destruct Hf as (_ & _ & Hsame).
    rewrite Hsame, Hlim. split; [exact I|exact Hc].
Qed.

Lemma total_backoff n :
  total (map (fun attempt => seconds (2 ^ Z.of_nat attempt)) (seq 0 n))
  = seconds (2 ^ Z.of_nat n - 1).
Proof.
  induction n as [|n IH].
  - reflexivity.
  - rewrite seq_S, map_app, total_app, IH. cbn [map total fold_right Nat.add].
    rewrite Nat2Z.inj_succ, Z.pow_succ_r by lia. unfold seconds. lia.
Qed.

(** X6.  A call whose first request is answered with status 200 and a body
    that parses returns the parsed body: it sends that one request and,
    after the limiter, does not sleep. *)
Theorem ok_on_first_response
    (env : Env) (self : RiotAPI) (url : string) (params : option (list (string * Z)))
    (st st0 : State) (response : Response) (body : PyValue) :
  acquire env st = (Ok tt, st0) ->
  1 <= max_retries self ->
  transport env (List.length (sent st0)) (request self url params) = Responded response ->
  status_code response = 200 ->
  json response = inr body ->
  _make_request env self url params st =
    (Ok body,
     mkState (clock st0) (reads st0) (sleeps st0) (sent st0 ++ [request self url params])
             (logs st0) (limiter_calls st0) (rate_limiter st0)).
Proof.
  intros Hacq Hpos Hget Hcode Hjson.
  rewrite (_make_request_after_acquire env self url params st st0 Hacq).
  unfold range. destruct (Z.to_nat (max_retries self)) as [|m] eqn:Hn; [lia|].
  cbn [seq run_attempts]. unfold bind.
  rewrite (status_200 env self url params 0%nat st0 response body Hget Hcode Hjson).
  reflexivity.
Qed.

(** X7.  A turn that receives a status other than 200, 404, 403 and 429
    and under 500 raises "Unexpected status code" with the code and the
    body at once: no sleep, no log and no further request, whatever turns
    remain. *)
Theorem unexpected_status_is_terminal
    (env : Env) (self : RiotAPI) (url : string) (params : option (list (string * Z)))
    (attempt : nat) (rest : list nat) (st : State) (response : Response) :
  transport env (List.length (sent st)) (request self url params) = Responded response ->
  status_code response <> 200 ->
  status_code response <> 404 ->
  status_code response <> 403 ->
  status_code response <> 429 ->
  status_code response < 500 ->
  run_attempts env self url params (attempt :: rest) st =
    (Raise (RiotAPIError ("Unexpected status code " ++ str_int (status_code response)
                          ++ ": " ++ text response)),
     mkState (clock st) (reads st) (sleeps st) (sent st ++ [request self url params])
             (logs st) (limiter_calls st) (rate_limiter st)).
Proof.
  intros Hget H200 H404 H403 H429 H500.
  cbn [run_attempts]. unfold bind at 1. unfold attempt_body. step_effects.
  rewrite Hget.
  repeat match goal with
         | |- context [status_code response =? ?c] =>
             replace (status_code response =? c) with false
               by (symmetry; apply Z.eqb_neq; assumption)
         end.
  replace (500 <=? status_code response) with false by (symmetry; apply Z.leb_gt; lia).
  reflexivity.
Qed.

(** X8.  A turn whose request fails with a [RequestException] other than
    a timeout, or is answered with status 200 and a body that does not
    parse, raises "Request failed" with the text of that exception at once:
    such failures are not retried. *)
Theorem request_failure_is_terminal
    (env : Env) (self : RiotAPI) (url : string) (params : option (list (string * Z)))
    (attempt : nat) (rest : list nat) (st : State) (msg : string) :
  transport env (List.length (sent st)) (request self url params) = RequestException msg \/
  (exists response,
      transport env (List.length (sent st)) (request self url params) = Responded response /\
      status_code response = 200 /\ json response = inl msg) ->
  run_attempts env self url params (attempt :: rest) st =
    (Raise (RiotAPIError ("Request failed: " ++ msg)),
     mkState (clock st) (reads st) (sleeps st) (sent st ++ [request self url params])
             (logs st) (limiter_calls st) (rate_limiter st)).
Proof.
  intros [Hget|(response & Hget & Hcode & Hjson)];
    cbn [run_attempts]; unfold bind at 1; unfold attempt_body; step_effects;
    rewrite Hget.
  - reflexivity.
  - rewrite Hcode, Hjson. reflexivity.
Qed.

(** X9.  A turn that receives status 429 with a [Retry-After] header that
    [int] rejects lets the [ValueError] out: the call ends with an
    exception that is no [RiotAPIError], without a log line or a sleep. *)
Theorem retry_after_not_a_number
    (env : Env) (self : RiotAPI) (url : string) (params : option (list (string * Z)))
    (attempt : nat) (rest : list nat) (st : State) (response : Response) (value : string) :
  transport env (List.length (sent st)) (request self url params) = Responded response ->
  status_code response = 429 ->
  retry_after_header response = Some value ->
  py_int env value = None ->
  run_attempts env self url params (attempt :: rest) st =
    (Raise ValueError,
     mkState (clock st) (reads st) (sleeps st) (sent st ++ [request self url params])
             (logs st) (limiter_calls st) (rate_limiter st)).
Proof.
  intros Hget Hcode Hheader Hint.
  cbn [run_attempts]. unfold bind at 1. unfold attempt_body, retry_after_of. step_effects.
  rewrite Hget, Hcode, Hheader, Hint. reflexivity.
Qed.

(** X10.  A turn that receives status 429 with a negative [Retry-After]
    logs the warning and then lets the [ValueError] of [time.sleep] out,
    without having slept. *)
Theorem retry_after_negative
    (env : Env) (self : RiotAPI) (url : string) (params : option (list (string * Z)))
    (attempt : nat) (rest : list nat) (st : State) (response : Response) (n : Z) :
  transport env (List.length (sent st)) (request self url params) = Responded response ->
  status_code response = 429 ->
  retry_after_of env response = Ok n ->
  n < 0 ->
  run_attempts env self url params (attempt :: rest) st =
    (Raise ValueError,
     mkState (clock st) (reads st) (sleeps st) (sent st ++ [request self url params])
             (logs st ++ [mkLog WARNING ("Rate limited. Waiting " ++ str_int n ++ "s...") []])
             (limiter_calls st) (rate_limiter st)).
Proof.
  intros Hget Hcode Hafter Hneg.
  cbn [run_attempts]. unfold bind at 1. unfold attempt_body. step_effects.
  rewrite Hget, Hcode. cbn [Z.eqb Pos.eqb]. step_effects. rewrite Hafter. step_effects.
  replace (seconds n <? 0) with true by (symmetry; apply Z.ltb_lt; unfold seconds; lia).
  reflexivity.
Qed.

(** X11.  Whatever the transport does, a call sends at most [max_retries]
    requests, none when [max_retries] is not positive, and they are all the
    same request: the url and parameters it was given, the client's two
    headers and a timeout of 10. *)
Theorem requests_within_budget
    (env : Env) (self : RiotAPI) (url : string) (params : option (list (string * Z)))
    (st : State) :
  exists k,
    (k <= Z.to_nat (max_retries self))%nat /\
    sent (snd (_make_request env self url params st)) =
      sent st ++ repeat (mkRequest url [("X-Riot-Token", api_key self);
                                        ("Accept", "application/json")] params 10) k.
Proof.
  pose proof (_make_request_frame env self url params st) as H. cbv zeta in H.
  destruct H as ((k & Hk & Hsent) & _). exists k. split; [exact Hk|exact Hsent].
Qed.

(** X12.  A client with [max_retries] zero or negative cannot succeed:
    once past the limiter, a call raises "Failed after [max_retries]
    attempts" without sending a request. *)
Theorem no_attempt_without_budget
    (env : Env) (self : RiotAPI) (url : string) (params : option (list (string * Z)))
    (st st0 : State) :
  acquire env st = (Ok tt, st0) ->
  max_retries self <= 0 ->
  _make_request env self url params st =
    (Raise (RiotAPIError ("Failed after " ++ str_int (max_retries self) ++ " attempts")), st0).
Proof.
  intros Hacq Hzero.
  rewrite (_make_request_after_acquire env self url params st st0 Hacq).
  unfold range. replace (Z.to_nat (max_retries self)) with 0%nat by lia. reflexivity.
Qed.

(** X13.  When every request of a call is answered with a status of 500
    or more, the call sends [max_retries] requests, sleeps after each of
    them, the last included, for [2 ^ attempt] seconds,
    [2 ^ max_retries - 1] seconds in all, and raises "Failed after
    [max_retries] attempts". *)
Theorem server_errors_sleep_on_every_turn
    (env : Env) (self : RiotAPI) (url : string) (params : option (list (string * Z)))
    (st st0 : State) (r : nat -> Response) :
  acquire env st = (Ok tt, st0) ->
  (forall i, (i < Z.to_nat (max_retries self))%nat ->
     transport env (List.length (sent st0) + i) (request self url params) = Responded (r i) /\
     500 <= status_code (r i)) ->
  fst (_make_request env self url params st) =
    Raise (RiotAPIError ("Failed after " ++ str_int (max_retries self) ++ " attempts")) /\
  sleeps (snd (_make_request env self url params st)) =
    sleeps st0 ++ map (fun attempt => seconds (2 ^ Z.of_nat attempt))
                      (seq 0 (Z.to_nat (max_retries self))) /\
  total (map (fun attempt => seconds (2 ^ Z.of_nat attempt))
             (seq 0 (Z.to_nat (max_retries self))))
    = seconds (2 ^ Z.of_nat (Z.to_nat (max_retries self)) - 1) /\
  List.length (sent (snd (_make_request env self url params st))) =
    (List.length (sent st0) + Z.to_nat (max_retries self))%nat.
Proof.
  intros Hacq Hget.
  rewrite (_make_request_after_acquire env self url params st st0 Hacq).
  pose proof (run_attempts_server_errors env self url params r
                (Z.to_nat (max_retries self)) 0%nat st0 Hget) as H.
  cbv zeta in H. destruct H as (Hres & Hsleeps & Hsent).
  unfold range. repeat split; try assumption. apply total_backoff.
Qed.


Lemma calls_keep_limiter env self requests :
  (forall k, 0 <= drift env k) ->
  forall st, limiter_inv st -> limiter_inv (calls env self requests st).
Proof.
  intros Hdrift. unfold calls.
  induction requests as [|[url params] requests IH]; intros st Hinv; cbn [fold_left].
  - exact Hinv.
  - apply IH. cbn [fst snd].
    apply (_make_request_keeps_limiter env self url params st Hinv); apply Hdrift.
Qed.

(** ** The constructor *)

Lemma str_in_In x l : str_in x l = true <-> In x l.
Proof.
  unfold str_in. rewrite existsb_exists. split.
  - intros (y & Hin & Heq). apply String.eqb_eq in Heq. now subst.
  - intros Hin. exists x. split; [exact Hin|apply String.eqb_refl].
Qed.

Lemma lower_char_idempotent c : lower_char (lower_char c) = lower_char c.
Proof. destruct c as [[] [] [] [] [] [] [] []]; reflexivity. Qed.

Lemma lower_idempotent s : lower (lower s) = lower s.
Proof.
  induction s as [|c s IH]; cbn; [reflexivity|].
  now rewrite lower_char_idempotent, IH.
Qed.

(** What [__init__] does on a region whose lower-case form is a key of
    [PLATFORM_URLS]: no lookup fails. *)
Lemma RiotAPI_init_valid api_key region rate_limit max_retries st :
  In (lower region) (keys PLATFORM_URLS) ->
  let routing := match table_get (lower region) PLATFORM_TO_REGION with
                 | Some routing => routing
                 | None => EmptyString
                 end in
  In routing ["americas"; "europe"; "asia"] /\
  RiotAPI_init api_key region rate_limit max_retries st =
    (inr (mkRiotAPI api_key (lower region) max_retries
            ("https://" ++ lower region ++ ".api.riotgames.com")
            ("https://" ++ routing ++ ".api.riotgames.com")),
     mkState (clock st) (reads st) (sleeps st) (sent st)
       (logs st ++ [mkLog INFO ("RiotAPI initialized for region: " ++ lower region) []])
       (limiter_calls st)
       (if rate_limit then Some RateLimiter_default else None)).
Proof.
  intros Hin. unfold RiotAPI_init.
  rewrite (proj2 (str_in_In _ _) Hin). cbn [negb].
  cbn in Hin.
  repeat (destruct Hin as [Heq|Hin];
          [rewrite <- Heq; cbn; split; [auto|reflexivity]|]).
  destruct Hin.
Qed.

(** X15.  For an ASCII [region], the constructor succeeds exactly when
    [region], in lower case, is one of the eleven platform codes.  It then
    keeps the lower-case code, takes "https://<code>.api.riotgames.com" as
    platform host and the host of one of the three routing regions as
    regional host, and no table lookup fails; otherwise it raises
    [ValueError] with a message that names the region as given and lists
    the codes, and leaves the state as it was. *)
Theorem init_accepts_the_platform_codes
    (api_key region : string) (rate_limit : bool) (max_retries : Z) (st : State) :
  is_ascii region = true ->
  if str_in (lower region)
            ["na1"; "euw1"; "kr"; "br1"; "eun1"; "jp1"; "la1"; "la2"; "oc1"; "tr1"; "ru"]
  then
    exists routing,
      In routing ["americas"; "europe"; "asia"] /\
      RiotAPI_init api_key region rate_limit max_retries st =
        (inr (mkRiotAPI api_key (lower region) max_retries
                ("https://" ++ lower region ++ ".api.riotgames.com")
                ("https://" ++ routing ++ ".api.riotgames.com")),
         mkState (clock st) (reads st) (sleeps st) (sent st)
           (logs st ++ [mkLog INFO ("RiotAPI initialized for region: " ++ lower region) []])
           (limiter_calls st)
           (if rate_limit then Some RateLimiter_default else None))
  else
    RiotAPI_init api_key region rate_limit max_retries st =
      (inl (InvalidRegion
              ("Invalid region: " ++ region ++ ". Must be one of "
               ++ "['na1', 'euw1', 'kr', 'br1', 'eun1', 'jp1', 'la1', 'la2', 'oc1', 'tr1', 'ru']")),
       st).
Proof.
  intros _.
  change ["na1"; "euw1"; "kr"; "br1"; "eun1"; "jp1"; "la1"; "la2"; "oc1"; "tr1"; "ru"]
    with (keys PLATFORM_URLS).
  destruct (str_in (lower region) (keys PLATFORM_URLS)) eqn:Hin.
  - eexists. apply RiotAPI_init_valid. now apply str_in_In.
  - unfold RiotAPI_init. rewrite Hin. reflexivity.
Qed.

(** X16.  The constructor does not tell the letter case of an ASCII
    [region] apart: on a region it accepts, it builds the same client as on
    that region in lower case. *)
Theorem init_ignores_letter_case
    (api_key region : string) (rate_limit : bool) (max_retries : Z) (st : State) :
  is_ascii region = true ->
  str_in (lower region) (keys PLATFORM_URLS) = true ->
  RiotAPI_init api_key region rate_limit max_retries st =
  RiotAPI_init api_key (lower region) rate_limit max_retries st.
Proof.
  intros _ Hin. apply str_in_In in Hin.
  assert (Hin' : In (lower (lower region)) (keys PLATFORM_URLS))
    by (rewrite lower_idempotent; exact Hin).
  rewrite (proj2 (RiotAPI_init_valid api_key region rate_limit max_retries st Hin)).
  rewrite (proj2 (RiotAPI_init_valid api_key (lower region) rate_limit max_retries st Hin')).
  rewrite lower_idempotent. reflexivity.
Qed.

Lemma wait_if_needed_caps env self st :
  exists after,
    rate_limiter (snd (wait_if_needed env self st)) = Some after /\
    requests_per_second after = requests_per_second self /\
    requests_per_2min after = requests_per_2min self.
Proof.
  unfold wait_if_needed. run_all; eexists; repeat split.
Qed.

(** The caps of the limiter a state holds. *)
Lemma _make_request_caps env self url params st :
  option_map (fun l => (requests_per_second l, requests_per_2min l))
             (rate_limiter (snd (_make_request env self url params st)))
  = option_map (fun l => (requests_per_second l, requests_per_2min l)) (rate_limiter st).
Proof.
  assert (Hacq : option_map (fun l => (requests_per_second l, requests_per_2min l))
                            (rate_limiter (snd (acquire env st)))
                 = option_map (fun l => (requests_per_second l, requests_per_2min l))
                              (rate_limiter st)).
  { unfold acquire. destruct (rate_limiter st) as [limiter|] eqn:Hlim.
    - destruct (wait_if_needed_caps env limiter st) as (after & Hafter & Hs & Hl).
      rewrite Hafter. cbn. now rewrite Hs, Hl.
    - cbn. now rewrite Hlim. }
  unfold _make_request, bind.
  destruct (acquire env st) as [[[]|e] st0]; cbn [snd] in *; [|exact Hacq].
  pose proof (run_attempts_frame env self url params (range (max_retries self)) st0) as Hf.
  cbv zeta in Hf. destruct Hf as (_ & _ & Hsame). now rewrite Hsame.
Qed.

Lemma calls_caps env self requests :
  forall st,
    option_map (fun l => (requests_per_second l, requests_per_2min l))
               (rate_limiter (calls env self requests st))
    = option_map (fun l => (requests_per_second l, requests_per_2min l)) (rate_limiter st).
Proof.
  unfold calls. induction requests as [|[url params] requests IH]; intros st; cbn [fold_left].
  - reflexivity.
  - rewrite IH. cbn [fst snd]. apply _make_request_caps.
Qed.

(** X17.  A client built by the constructor with rate limiting on, and
    then used for any sequence of calls under a clock that does not run
    backwards, keeps its limiter in good order: the caps stay 20 and 100,
    both windows stay in time order, and at the instant of the last event
    no more than 20 recorded requests lie within the last second and no
    more than 100 within the last 120 seconds.  Built with rate limiting
    off, it never gets a limiter. *)
Theorem client_respects_rate_limits
    (env : Env) (api_key region : string) (rate_limit : bool) (max_retries : Z)
    (st st0 : State) (self : RiotAPI)
    (requests : list (string * option (list (string * Z)))) :
  is_ascii region = true ->
  (forall k, 0 <= drift env k) ->
  RiotAPI_init api_key region rate_limit max_retries st = (inr self, st0) ->
  match rate_limiter (calls env self requests st0) with
  | Some limiter =>
      rate_limit = true /\
      requests_per_second limiter = 20 /\
      requests_per_2min limiter = 100 /\
      Sorted Z.le (second_requests limiter) /\
      Sorted Z.le (two_min_requests limiter) /\
      recent (seconds 1) (clock (calls env self requests st0)) (second_requests limiter) <= 20 /\
      recent (seconds 120) (clock (calls env self requests st0)) (two_min_requests limiter) <= 100
  | None => rate_limit = false
  end.
Proof.
  intros _ Hdrift Hinit.
  assert (Hlim0 : rate_limiter st0 = if rate_limit then Some RateLimiter_default else None).
  { destruct (str_in (lower region) (keys PLATFORM_URLS)) eqn:Hin.
    - apply str_in_In in Hin.
      rewrite (proj2 (RiotAPI_init_valid api_key region rate_limit max_retries st Hin))
        in Hinit.
      injection Hinit as _ <-. reflexivity.
    - unfold RiotAPI_init in Hinit. rewrite Hin in Hinit. discriminate. }
  assert (Hinv0 : limiter_inv st0).
  { unfold limiter_inv. rewrite Hlim0. destruct rate_limit; [|exact I].
    unfold limiter_ok, recent. cbn. repeat split; try lia; constructor. }
  pose proof (calls_keep_limiter env self requests Hdrift st0 Hinv0) as Hinv.
  pose proof (calls_caps env self requests st0) as Hcaps.
  unfold limiter_inv in Hinv. rewrite Hlim0 in Hcaps.
  destruct (rate_limiter (calls env self requests st0)) as [limiter|];
    destruct rate_limit; cbn in Hcaps; try discriminate; [|reflexivity].
  injection Hcaps as Hs Hl.
  destruct Hinv as (_ & _ & Hss & Hsl & _ & _ & Hcs & Hcl).
  rewrite Hs in Hcs. rewrite Hl in Hcl. repeat split; assumption.
Qed.

(** ** [quote] *)

Lemma list_ascii_of_string_app a b :
  list_ascii_of_string (a ++ b) = list_ascii_of_string a ++ list_ascii_of_string b.
Proof. induction a as [|c a IH]; cbn; [reflexivity|now rewrite IH]. Qed.

Lemma quote_byte_url_safe c :
  forallb url_safe (list_ascii_of_string (quote_byte c)) = true.
Proof. destruct c as [[] [] [] [] [] [] [] []]; reflexivity. Qed.

Lemma unquote_head_quote_byte c rest :
  unquote_head (quote_byte c ++ rest) = Some (c, rest).
Proof. destruct c as [[] [] [] [] [] [] [] []]; reflexivity. Qed.

(** Every byte [quote] produces is a letter, a digit, one of [_.-~], a
    slash or a percent sign. *)
Lemma quote_is_url_safe (s : string) :
  forallb url_safe (list_ascii_of_string (quote s)) = true.
Proof.
  induction s as [|c s IH]; cbn [quote]; [reflexivity|].
  rewrite list_ascii_of_string_app, forallb_app, quote_byte_url_safe, IH. reflexivity.
Qed.

Lemma quote_keeps_safe_text (s : string) :
  forallb (fun c => always_safe c || Ascii.eqb c "/") (list_ascii_of_string s) = true ->
  quote s = s.
Proof.
  induction s as [|c s IH]; cbn [quote list_ascii_of_string forallb]; [reflexivity|].
  intros H. apply andb_prop in H. destruct H as [Hc Hs].
  unfold quote_byte. rewrite Hc, (IH Hs). reflexivity.
Qed.

Lemma quote_injective (s1 s2 : string) :
  quote s1 = quote s2 -> s1 = s2.
Proof.
  revert s2. induction s1 as [|c1 s1 IH]; intros [|c2 s2]; cbn [quote]; intros H.
  - reflexivity.
  - apply (f_equal unquote_head) in H. rewrite unquote_head_quote_byte in H. discriminate.
  - apply (f_equal unquote_head) in H. rewrite unquote_head_quote_byte in H. discriminate.
  - apply (f_equal unquote_head) in H. rewrite !unquote_head_quote_byte in H.
    injection H as -> Hrest. f_equal. now apply IH.
Qed.

Lemma string_app_assoc (a b c : string) : ((a ++ b) ++ c = a ++ (b ++ c))%string.
Proof. induction a as [|x a IH]; cbn; [reflexivity|now rewrite IH]. Qed.

Lemma string_app_cancel (a b c : string) : (a ++ b = a ++ c)%string -> b = c.
Proof. induction a as [|x a IH]; cbn; [auto|]. intros H. injection H as H. auto. Qed.

Lemma quote_app (a b : string) : quote (a ++ b) = (quote a ++ quote b)%string.
Proof.
  induction a as [|x a IH]; cbn [quote String.append]; [reflexivity|].
  now rewrite IH, string_app_assoc.
Qed.

(** X18.  The path [get_account_by_riot_id] adds to the regional host for
    a game name and a tag line is made of letters, digits, [_.-~], slashes
    and percent signs only: no name puts a space, question mark, number
    sign or ampersand into the url. *)
Theorem account_url_is_url_safe (self : RiotAPI) (game_name tag_line : string) :
  exists path,
    account_url self game_name tag_line =
      (regional_url self ++ "/riot/account/v1/accounts/by-riot-id/" ++ path)%string /\
    forallb url_safe (list_ascii_of_string path) = true /\
    forallb (fun c => negb (Ascii.eqb c " ") && negb (Ascii.eqb c "?")
                      && negb (Ascii.eqb c "#") && negb (Ascii.eqb c "&"))
            (list_ascii_of_string path) = true.
Proof.
  exists (quote game_name ++ "/" ++ quote tag_line)%string.
  split; [reflexivity|].
  assert (Hsafe : forallb url_safe
                    (list_ascii_of_string (quote game_name ++ "/" ++ quote tag_line)) = true).
  { rewrite !list_ascii_of_string_app, !forallb_app, !quote_is_url_safe. reflexivity. }
  split; [exact Hsafe|].
  rewrite forallb_forall in *. intros c Hin. specialize (Hsafe c Hin).
  destruct c as [[] [] [] [] [] [] [] []]; try reflexivity; discriminate.
Qed.

(** X19.  [quote] does not escape a slash, so [get_account_by_riot_id]
    builds one and the same url for a game name that ends in "/b" with tag
    line "c" and for that name without the ending with tag line "b/c". *)
Theorem account_url_confuses_slashes (self : RiotAPI) (a b c : string) :
  account_url self (a ++ "/" ++ b) c = account_url self a (b ++ "/" ++ c).
Proof.
  unfold account_url. rewrite !quote_app.
  change (quote "/") with "/"%string.
  now rewrite !string_app_assoc.
Qed.

(** X20.  [get_summoner_by_name] requests different urls for different
    summoner names. *)
Theorem summoner_url_injective (self : RiotAPI) (name1 name2 : string) :
  summoner_url self name1 = summoner_url self name2 -> name1 = name2.
Proof.
  unfold summoner_url. intros H.
  apply string_app_cancel in H. apply string_app_cancel in H.
  now apply quote_injective.
Qed.

(** ** [Config] *)





Lemma lower_valid_region region :
  In region Config.valid_regions -> lower region = region.
Proof.
  cbn. intros H.
  repeat (destruct H as [<-|H]; [reflexivity|]). destruct H.
Qed.

Lemma valid_regions_are_platforms region :
  In region Config.valid_regions <-> In region (keys PLATFORM_URLS).
Proof. cbn. tauto. Qed.

Lemma validate_true cls :
  fst (Config.validate cls) = true <-> Config.errors cls = [].
Proof.
  unfold Config.validate. destruct (Config.errors cls); cbn; split; congruence.
Qed.

Lemma errors_nil cls :
  Config.errors cls = [] <->
  (exists key, Config.RIOT_API_KEY cls = Some key /\ key <> EmptyString /\
               key <> "your_riot_api_key_here"%string) /\
  In (Config.RIOT_REGION cls) Config.valid_regions /\
  In (Config.TARGET_RANK cls) Config.VALID_RANKS.
Proof.
  unfold Config.errors. rewrite <- !str_in_In.
  destruct (str_in (Config.RIOT_REGION cls) Config.valid_regions);
    destruct (str_in (Config.TARGET_RANK cls) Config.VALID_RANKS);
    destruct (Config.RIOT_API_KEY cls) as [key|]; cbn [negb];
    try destruct (String.eqb_spec key "");
    try destruct (String.eqb_spec key "your_riot_api_key_here").
  all: split;
    [ intros H; try discriminate;
      try (apply app_eq_nil in H; destruct H; discriminate);
      try (repeat split; eauto; fail)
    | intros ((key' & Hkey & Hne & Hnp) & Hr & Ht);
      try discriminate; try (injection Hkey as <-; congruence); try reflexivity ].
Qed.

(** X21.  [Config.validate] returns [True] exactly when the key is set,
    not empty and not the placeholder, the region is one of the eleven
    codes in lower case, and the target rank is one of the nine ranks; it
    prints one line and one more for each check that failed. *)
Theorem validate_accepts_complete_settings (cls : Config.t) :
  (fst (Config.validate cls) = true <->
   (exists key, Config.RIOT_API_KEY cls = Some key /\ key <> EmptyString /\
                key <> "your_riot_api_key_here"%string) /\
   In (Config.RIOT_REGION cls) Config.valid_regions /\
   In (Config.TARGET_RANK cls) Config.VALID_RANKS) /\
  List.length (snd (Config.validate cls)) = S (List.length (Config.errors cls)) /\
  (List.length (Config.errors cls) <= 3)%nat.
Proof.
  split; [rewrite validate_true; apply errors_nil|]. split.
  - unfold Config.validate. destruct (Config.errors cls); cbn; [reflexivity|].
    now rewrite length_map.
  - unfold Config.errors.
    destruct (Config.RIOT_API_KEY cls) as [key|];
      try destruct (String.eqb key "");
      try destruct (String.eqb key "your_riot_api_key_here");
      destruct (negb (str_in (Config.RIOT_REGION cls) Config.valid_regions));
      destruct (negb (str_in (Config.TARGET_RANK cls) Config.VALID_RANKS));
      cbn; lia.
Qed.

(** X22.  Settings that [Config.validate] accepts build a client: the
    constructor called with the key and region of such settings raises
    nothing and keeps the region as it is. *)
Theorem validated_settings_build_a_client
    (cls : Config.t) (rate_limit : bool) (max_retries : Z) (st : State) :
  fst (Config.validate cls) = true ->
  exists key self st',
    Config.RIOT_API_KEY cls = Some key /\
    RiotAPI_init key (Config.RIOT_REGION cls) rate_limit max_retries st = (inr self, st') /\
    api_key self = key /\
    region self = Config.RIOT_REGION cls.
Proof.
  intros Hvalid. apply validate_true in Hvalid. apply errors_nil in Hvalid.
  destruct Hvalid as ((key & Hkey & _ & _) & Hregion & _).
  pose proof (lower_valid_region _ Hregion) as Hlower.
  assert (Hin : In (lower (Config.RIOT_REGION cls)) (keys PLATFORM_URLS))
    by (rewrite Hlower; now apply valid_regions_are_platforms).
  destruct (RiotAPI_init_valid key (Config.RIOT_REGION cls) rate_limit max_retries st Hin)
    as (_ & Hinit).
  eexists key, _, _. split; [exact Hkey|]. split; [exact Hinit|].
  cbn. split; [reflexivity|exact Hlower].
Qed.

(** X23.  [Config.validate] tells letter case apart where the constructor
    does not: it rejects any region that is not already in lower case,
    also one the constructor accepts. *)
Theorem validate_rejects_upper_case (cls : Config.t) :
  is_ascii (Config.RIOT_REGION cls) = true ->
  lower (Config.RIOT_REGION cls) <> Config.RIOT_REGION cls ->
  fst (Config.validate cls) = false.
Proof.
  intros _ Hcase. destruct (fst (Config.validate cls)) eqn:Hvalid; [|reflexivity].
  apply validate_true in Hvalid. apply errors_nil in Hvalid.
  destruct Hvalid as (_ & Hregion & _).
  destruct Hcase. now apply lower_valid_region.
Qed.


(** ** More endpoint methods *)

(** X25.  In the parameters [get_match_ids] sends, [queue] is present
    only for a queue that is neither [None] nor 0, while [type] is present
    for every type that is not [None], 0 included. *)
Theorem match_ids_params_filters (start count : Z) (queue type : option Z) :
  dict_get "queue" (match_ids_params start count queue type) =
    match queue with
    | Some q => if q =? 0 then None else Some q
    | None => None
    end /\
  dict_get "type" (match_ids_params start count queue type) = type.
Proof.
  unfold match_ids_params.
  destruct queue as [q|], type as [t|]; try destruct (q =? 0); split; reflexivity.
Qed.

(** X26.  [test_connection] never raises [RiotAPIError]: it returns
    [True] only when a request to the account url of "Doublelift#NA1" was
    answered with status 200 and a body that parses, returns [False] when
    the dispatcher raised [RiotAPIError], and lets any other exception of
    the dispatcher out. *)
Theorem test_connection_outcome (env : Env) (self : RiotAPI) (st : State) :
  let url := (regional_url self
              ++ "/riot/account/v1/accounts/by-riot-id/Doublelift/NA1")%string in
  let call := _make_request env self url None
                (snd (logger INFO "Fetching account: Doublelift#NA1" [] st)) in
  (forall msg, fst (test_connection env self st) <> Raise (RiotAPIError msg)) /\
  match fst (test_connection env self st) with
  | Ok true =>
      exists k response body,
        transport env k (request self url None) = Responded response /\
        status_code response = 200 /\ json response = inr body
  | Ok false => exists msg, fst call = Raise (RiotAPIError msg)
  | Raise e => fst call = Raise e
  end.
Proof.
  cbv zeta. unfold test_connection, try_except_RiotAPIError, get_account_by_riot_id.
  change (account_url self "Doublelift" "NA1")
    with (regional_url self ++ "/riot/account/v1/accounts/by-riot-id/Doublelift/NA1")%string.
  unfold bind, logger, ret. cbn [snd].
  destruct (_make_request env self _ None _) as [[body|[msg| | |]] st'] eqn:Hcall;
    cbn [fst snd]; (split; [intros msg'; discriminate|]); eauto.
  destruct (_make_request_returns _ _ _ _ _ _ _ Hcall) as (k & response & H).
  eauto.
Qed.




(** ** Runs of the further properties on sample inputs *)

Lemma full_short_window_waits_a_second_witness :
  let env := Sample.env (fun _ => Timeout) in
  exists st' long,
    wait_if_needed env Sample.busy Sample.at_one_second = (Ok tt, st') /\
    rate_limiter st' =
      Some (mkRateLimiter 2 2 (500000 :: [900000] ++ [clock st']) long) /\
    500000 + seconds 1 <= clock st'.
Proof.
  apply (full_short_window_waits_a_second (Sample.env (fun _ => Timeout)) Sample.busy
           Sample.at_one_second 500000 [900000]).
  - reflexivity.
  - reflexivity.
  - discriminate.
  - reflexivity.
  - discriminate.
Defined.

Lemma full_long_window_waits_two_minutes_witness :
  let env := Sample.env (fun _ => Timeout) in
  exists st' short,
    wait_if_needed env Sample.busy Sample.at_one_second = (Ok tt, st') /\
    rate_limiter st' =
      Some (mkRateLimiter 2 2 short (500000 :: [900000] ++ [clock st'])) /\
    500000 + seconds 120 <= clock st'.
Proof.
  apply (full_long_window_waits_two_minutes (Sample.env (fun _ => Timeout)) Sample.busy
           Sample.at_one_second 500000 [900000]).
  - reflexivity.
  - reflexivity.
  - discriminate.
  - reflexivity.
  - discriminate.
Defined.


Lemma wait_if_needed_sleeps_at_most_witness :
  let env := Sample.env (fun _ => Timeout) in
  exists st' slept,
    wait_if_needed env Sample.busy Sample.at_one_second = (Ok tt, st') /\
    sleeps st' = sleeps Sample.at_one_second ++ slept /\
    (List.length slept <= 2)%nat /\
    Forall (fun d => 0 < d <= seconds 120) slept /\
    total slept <= seconds 121.
Proof.
  apply (wait_if_needed_sleeps_at_most (Sample.env (fun _ => Timeout)) Sample.busy
           Sample.at_one_second).
  - reflexivity.
  - reflexivity.
  - repeat constructor; discriminate.
  - repeat constructor; discriminate.
Defined.

Lemma wait_if_needed_without_cap_witness :
  let env := Sample.env (fun _ => Timeout) in
  wait_if_needed env (RateLimiter_init 0 100) (initial_state 0 None) =
    (Raise IndexError, mkState 0 1 [] [] [] 1 (Some (mkRateLimiter 0 100 [] []))).
Proof.
  apply (wait_if_needed_without_cap (Sample.env (fun _ => Timeout)) (RateLimiter_init 0 100)
           (initial_state 0 None)).
  - discriminate.
  - reflexivity.
Defined.

Lemma ok_on_first_response_witness :
  let self := Sample.client Sample.key 3 in
  _make_request (Sample.env (fun _ => Sample.ok Sample.body)) self Sample.url None
                (initial_state 0 None) =
    (Ok Sample.body, mkState 0 0 [] [request self Sample.url None] [] 0 None).
Proof.
  apply (ok_on_first_response (Sample.env (fun _ => Sample.ok Sample.body))
           (Sample.client Sample.key 3) Sample.url None
           (initial_state 0 None) (initial_state 0 None)
           (mkResponse 200 "" None (inr Sample.body)) Sample.body).
  - reflexivity.
  - discriminate.
  - reflexivity.
  - reflexivity.
  - reflexivity.
Defined.

Lemma unexpected_status_is_terminal_witness :
  let self := Sample.client Sample.key 3 in
  run_attempts (Sample.env (fun _ => Sample.status 400 None)) self Sample.url None
               [0%nat; 1%nat; 2%nat] (initial_state 0 None) =
    (Raise (RiotAPIError "Unexpected status code 400: "),
     mkState 0 0 [] [request self Sample.url None] [] 0 None).
Proof.
  apply (unexpected_status_is_terminal (Sample.env (fun _ => Sample.status 400 None))
           (Sample.client Sample.key 3) Sample.url None 0%nat [1%nat; 2%nat]
           (initial_state 0 None) (mkResponse 400 "" None (inl "Expecting value"))).
  - reflexivity.
  - discriminate.
  - discriminate.
  - discriminate.
  - discriminate.
  - reflexivity.
Defined.

Lemma request_failure_is_terminal_witness :
  let self := Sample.client Sample.key 3 in
  run_attempts (Sample.env (fun _ => RequestException "Connection refused")) self
               Sample.url None [0%nat; 1%nat; 2%nat] (initial_state 0 None) =
    (Raise (RiotAPIError "Request failed: Connection refused"),
     mkState 0 0 [] [request self Sample.url None] [] 0 None).
Proof.
  apply (request_failure_is_terminal
           (Sample.env (fun _ => RequestException "Connection refused"))
           (Sample.client Sample.key 3) Sample.url None 0%nat [1%nat; 2%nat]
           (initial_state 0 None) "Connection refused").
  left. reflexivity.
Defined.

Lemma retry_after_not_a_number_witness :
  let self := Sample.client Sample.key 3 in
  run_attempts (Sample.env (fun _ => Sample.status 429 (Some "soon"))) self Sample.url None
               [0%nat; 1%nat; 2%nat] (initial_state 0 None) =
    (Raise ValueError, mkState 0 0 [] [request self Sample.url None] [] 0 None).
Proof.
  apply (retry_after_not_a_number (Sample.env (fun _ => Sample.status 429 (Some "soon")))
           (Sample.client Sample.key 3) Sample.url None 0%nat [1%nat; 2%nat]
           (initial_state 0 None)
           (mkResponse 429 "" (Some "soon") (inl "Expecting value")) "soon").
  - reflexivity.
  - reflexivity.
  - reflexivity.
  - reflexivity.
Defined.

Lemma retry_after_negative_witness :
  let self := Sample.client Sample.key 3 in
  run_attempts (Sample.env (fun _ => Sample.status 429 (Some "-3"))) self Sample.url None
               [0%nat; 1%nat; 2%nat] (initial_state 0 None) =
    (Raise ValueError,
     mkState 0 0 [] [request self Sample.url None]
             [mkLog WARNING "Rate limited. Waiting -3s..." []] 0 None).
Proof.
  apply (retry_after_negative (Sample.env (fun _ => Sample.status 429 (Some "-3")))
           (Sample.client Sample.key 3) Sample.url None 0%nat [1%nat; 2%nat]
           (initial_state 0 None)
           (mkResponse 429 "" (Some "-3") (inl "Expecting value")) (-3)).
  - reflexivity.
  - reflexivity.
  - reflexivity.
  - reflexivity.
Defined.

Lemma no_attempt_without_budget_witness :
  _make_request (Sample.env (fun _ => Sample.ok Sample.body)) (Sample.client Sample.key 0)
                Sample.url None (initial_state 0 None) =
    (Raise (RiotAPIError "Failed after 0 attempts"), initial_state 0 None).
Proof.
  apply (no_attempt_without_budget (Sample.env (fun _ => Sample.ok Sample.body))
           (Sample.client Sample.key 0) Sample.url None
           (initial_state 0 None) (initial_state 0 None)).
  - reflexivity.
  - discriminate.
Defined.

Lemma server_errors_sleep_on_every_turn_witness :
  let env := Sample.env (fun _ => Sample.status 503 None) in
  let out := _make_request env (Sample.client Sample.key 3) Sample.url None
                           (initial_state 0 None) in
  fst out = Raise (RiotAPIError "Failed after 3 attempts") /\
  sleeps (snd out) = [seconds 1; seconds 2; seconds 4] /\
  total [seconds 1; seconds 2; seconds 4] = seconds 7 /\
  List.length (sent (snd out)) = 3%nat.
Proof.
  apply (server_errors_sleep_on_every_turn (Sample.env (fun _ => Sample.status 503 None))
           (Sample.client Sample.key 3) Sample.url None
           (initial_state 0 None) (initial_state 0 None)
           (fun _ => mkResponse 503 "" None (inl "Expecting value"))).
  - reflexivity.
  - intros i Hi. split; [reflexivity|discriminate].
Defined.


Lemma init_accepts_the_platform_codes_witness :
  exists routing,
    In routing ["americas"; "europe"; "asia"] /\
    RiotAPI_init Sample.key "EUW1" true 3 (initial_state 0 None) =
      (inr (mkRiotAPI Sample.key (lower "EUW1") 3
              ("https://" ++ lower "EUW1" ++ ".api.riotgames.com")
              ("https://" ++ routing ++ ".api.riotgames.com")),
       mkState 0 0 [] []
         ([] ++ [mkLog INFO ("RiotAPI initialized for region: " ++ lower "EUW1") []])
         0 (Some RateLimiter_default)).
Proof.
  apply (init_accepts_the_platform_codes Sample.key "EUW1" true 3 (initial_state 0 None)).
  reflexivity.
Defined.

Lemma init_ignores_letter_case_witness :
  RiotAPI_init Sample.key "EUW1" true 3 (initial_state 0 None) =
  RiotAPI_init Sample.key (lower "EUW1") true 3 (initial_state 0 None).
Proof.
  apply (init_ignores_letter_case Sample.key "EUW1" true 3 (initial_state 0 None)).
  - reflexivity.
  - reflexivity.
Defined.

Lemma client_respects_rate_limits_witness :
  let env := Sample.env Sample.unavailable_twice in
  let st0 := mkState 0 0 [] [] [mkLog INFO "RiotAPI initialized for region: na1" []] 0
                     (Some RateLimiter_default) in
  let requests := [(Sample.url, None); (Sample.url, None)] in
  match rate_limiter (calls env (Sample.client Sample.key 3) requests st0) with
  | Some limiter =>
      true = true /\
      requests_per_second limiter = 20 /\
      requests_per_2min limiter = 100 /\
      Sorted Z.le (second_requests limiter) /\
      Sorted Z.le (two_min_requests limiter) /\
      recent (seconds 1) (clock (calls env (Sample.client Sample.key 3) requests st0))
             (second_requests limiter) <= 20 /\
      recent (seconds 120) (clock (calls env (Sample.client Sample.key 3) requests st0))
             (two_min_requests limiter) <= 100
  | None => true = false
  end.
Proof.
  apply (client_respects_rate_limits (Sample.env Sample.unavailable_twice)
           Sample.key "na1" true 3 (initial_state 0 None)
           (mkState 0 0 [] [] [mkLog INFO "RiotAPI initialized for region: na1" []] 0
                    (Some RateLimiter_default))
           (Sample.client Sample.key 3) [(Sample.url, None); (Sample.url, None)]).
  - reflexivity.
  - intros k. discriminate.
  - reflexivity.
Defined.

Lemma summoner_url_injective_witness : "Hide on bush" = "Hide on bush".
Proof.
  apply (summoner_url_injective (Sample.client Sample.key 3) "Hide on bush" "Hide on bush").
  reflexivity.
Defined.

Lemma validated_settings_build_a_client_witness :
  let cls := Config.mk (Some Sample.key) "euw1" "DIAMOND" in
  exists key self st',
    Config.RIOT_API_KEY cls = Some key /\
    RiotAPI_init key (Config.RIOT_REGION cls) true 3 (initial_state 0 None) = (inr self, st') /\
    api_key self = key /\
    region self = Config.RIOT_REGION cls.
Proof.
  apply (validated_settings_build_a_client (Config.mk (Some Sample.key) "euw1" "DIAMOND")
           true 3 (initial_state 0 None)).
  reflexivity.
Defined.

Lemma validate_rejects_upper_case_witness :
  fst (Config.validate (Config.mk (Some Sample.key) "NA1" "DIAMOND")) = false.
Proof.
  apply (validate_rejects_upper_case (Config.mk (Some Sample.key) "NA1" "DIAMOND")).
  - reflexivity.
  - discriminate.
Defined.

